(** * Document mail-merge endpoint ([app.py]): a shallow embedding

    The handler [document_merge] of [app.py] is embedded as a function from
    the outcome of [request.get_json()] to an HTTP response, run in a small
    exception-and-trace monad.  The trace records every call into the merge
    library ([MailMerge], [get_merge_fields], [merge], [write]) and every
    line sent to the application log, so that "the merge is not attempted"
    is a statement about the trace.

    The collaborators the handler calls are modelled as follows.
    - [base64.b64decode] and [base64.b64encode] follow CPython:
      [Lib/base64.py] and the loops of [Modules/binascii.c]
      ([a2b_base64] in its default non-strict mode, [b2a_base64]).
    - The docx-mailmerge class [MailMerge] is an interface
      ([MergeCapability]); the theorems hold for every implementation.
    - [request.get_json()] is the request: what it returns or raises. *)

From Stdlib Require Import ZArith List String Ascii Bool Lia.
From Stdlib Require Import Strings.Byte Floats.SpecFloat DecimalString.
Import ListNotations.

#[local] Set Warnings "-register-all".
#[local] Open Scope string_scope.
#[local] Open Scope Z_scope.

(** ** Python values *)

(** A Python [str] is a Rocq [string], one [ascii] per code point (code
    points 0..255).  [bytes] is a list of bytes. *)
Definition bytes := list byte.

(** An exception: an instance of [Exception], with its class name and the
    text [str(e)] gives.  The [BaseException]s outside [Exception]
    ([KeyboardInterrupt], [SystemExit], [GeneratorExit]) come from signals
    and interpreter shutdown, not from the calls modelled here. *)
Record exn : Type := PyException { exn_class : string; str_exn : string }.

Inductive result (A : Type) : Type :=
| Ok (a : A)
| Raise (e : exn).
Arguments Ok {A} a.
Arguments Raise {A} e.

(** What [json.loads] builds: [None], [bool], [int], [float], [str],
    [list] and [dict].  A [dict] keeps its items in insertion order, with
    pairwise distinct keys. *)
Inductive json : Type :=
| JNull
| JBool (b : bool)
| JInt (n : Z)
| JFloat (f : spec_float)
| JStr (s : string)
| JArr (l : list json)
| JObj (d : list (string * json)).

Definition dict := list (string * json).

(** [type(v).__name__] *)
Definition type_name (v : json) : string :=
  match v with
  | JNull => "NoneType"
  | JBool _ => "bool"
  | JInt _ => "int"
  | JFloat _ => "float"
  | JStr _ => "str"
  | JArr _ => "list"
  | JObj _ => "dict"
  end.

(** Truth value testing, as [not request_data] uses it. *)
Definition truthy (v : json) : bool :=
  match v with
  | JNull => false
  | JBool b => b
  | JInt n => negb (n =? 0)
  | JFloat (S754_zero _) => false
  | JFloat _ => true
  | JStr s => negb (String.eqb s "")
  | JArr l => match l with [] => false | _ => true end
  | JObj d => match d with [] => false | _ => true end
  end.

(** [isinstance(value, str)] *)
Definition is_str (v : json) : bool :=
  match v with JStr _ => true | _ => false end.

(** ** Strings *)

Fixpoint prefix_of (p s : string) : bool :=
  match p with
  | EmptyString => true
  | String a p' =>
      match s with
      | EmptyString => false
      | String b s' => Ascii.eqb a b && prefix_of p' s'
      end
  end.

(** [sub in s] for two strings *)
Fixpoint substring_of (sub s : string) : bool :=
  prefix_of sub s ||
  match s with
  | EmptyString => false
  | String _ s' => substring_of sub s'
  end.

(** ** Dictionaries *)

Fixpoint dict_get (k : string) (d : dict) : option json :=
  match d with
  | [] => None
  | (k', v) :: d' => if String.eqb k k' then Some v else dict_get k d'
  end.

Definition dict_mem (k : string) (d : dict) : bool :=
  match dict_get k d with Some _ => true | None => false end.

(** ** Bytes as machine integers *)

Definition byte_val (b : byte) : Z := Z.of_N (Byte.to_N b).

(** Storing an [int] into an [unsigned char]: the low eight bits. *)
Definition byte_of_Z (n : Z) : byte :=
  match Byte.of_N (Z.to_N (n mod 256)) with
  | Some b => b
  | None => x00
  end.

Definition char_val (c : ascii) : Z := Z.of_N (N_of_ascii c).

(** ** The base64 codec of CPython *)

Module binascii.

(** [binascii.Error] is a subclass of [ValueError]. *)
Definition Error (msg : string) : exn := PyException "binascii.Error" msg.

Definition BASE64_PAD : Z := 61.

(** [table_a2b_base64]: the value of each input byte, 255 (the [-1] of
    the C table, stored in an [unsigned char]) for a byte outside the
    alphabet.  The table maps the pad character to 0; the loop tests for
    the pad before it looks a byte up. *)
Definition table_a2b_base64 : list Z :=
  [ 255;255;255;255; 255;255;255;255; 255;255;255;255; 255;255;255;255;
    255;255;255;255; 255;255;255;255; 255;255;255;255; 255;255;255;255;
    255;255;255;255; 255;255;255;255; 255;255;255; 62; 255;255;255; 63;
     52; 53; 54; 55;  56; 57; 58; 59;  60; 61;255;255; 255;  0;255;255;
    255;  0;  1;  2;   3;  4;  5;  6;   7;  8;  9; 10;  11; 12; 13; 14;
     15; 16; 17; 18;  19; 20; 21; 22;  23; 24; 25;255; 255;255;255;255;
    255; 26; 27; 28;  29; 30; 31; 32;  33; 34; 35; 36;  37; 38; 39; 40;
     41; 42; 43; 44;  45; 46; 47; 48;  49; 50; 51;255; 255;255;255;255;

    255;255;255;255; 255;255;255;255; 255;255;255;255; 255;255;255;255;
    255;255;255;255; 255;255;255;255; 255;255;255;255; 255;255;255;255;
    255;255;255;255; 255;255;255;255; 255;255;255;255; 255;255;255;255;
    255;255;255;255; 255;255;255;255; 255;255;255;255; 255;255;255;255;
    255;255;255;255; 255;255;255;255; 255;255;255;255; 255;255;255;255;
    255;255;255;255; 255;255;255;255; 255;255;255;255; 255;255;255;255;
    255;255;255;255; 255;255;255;255; 255;255;255;255; 255;255;255;255;
    255;255;255;255; 255;255;255;255; 255;255;255;255; 255;255;255;255 ].

(** [table_b2a_base64] *)
Definition table_b2a_base64 : string :=
  "ABCDEFGHIJKLMNOPQRSTUVWXYZabcdefghijklmnopqrstuvwxyz0123456789+/".

Definition a2b_digit (this_ch : byte) : Z :=
  nth (Z.to_nat (byte_val this_ch)) table_a2b_base64 255.

Definition b2a_digit (this_ch : Z) : byte :=
  match String.get (Z.to_nat this_ch) table_b2a_base64 with
  | Some c => byte_of_ascii c
  | None => x00
  end.

Definition pad_byte : byte := byte_of_Z BASE64_PAD.

(** The decoding loop of [a2b_base64] with [strict_mode] off.  [Ok]
    before the end of the input is the [goto done] of a complete pad
    sequence; at the end of the input a quad left open is an error. *)
Fixpoint a2b_base64_loop (ascii_data : bytes) (quad_pos leftchar pads : Z)
    (bin_data : bytes) : result bytes :=
  match ascii_data with
  | [] =>
      if quad_pos =? 0 then Ok bin_data
      else if quad_pos =? 1 then
        Raise (Error
          ("Invalid base64-encoded string: number of data characters ("
           ++ NilZero.string_of_int
                (Z.to_int (Z.of_nat (List.length bin_data) / 3 * 4 + 1))
           ++ ") cannot be 1 more than a multiple of 4"))
      else Raise (Error "Incorrect padding")
  | c :: rest =>
      if byte_val c =? BASE64_PAD then
        if (2 <=? quad_pos) && (4 <=? quad_pos + (pads + 1)) then Ok bin_data
        else
          a2b_base64_loop rest quad_pos leftchar
            (if 2 <=? quad_pos then pads + 1 else pads) bin_data
      else
        let this_ch := a2b_digit c in
        if 64 <=? this_ch then
          a2b_base64_loop rest quad_pos leftchar pads bin_data
        else if quad_pos =? 0 then
          a2b_base64_loop rest 1 this_ch 0 bin_data
        else if quad_pos =? 1 then
          a2b_base64_loop rest 2 (Z.land this_ch 0x0f) 0
            (bin_data ++
             [byte_of_Z (Z.lor (Z.shiftl leftchar 2) (Z.shiftr this_ch 4))])%list
        else if quad_pos =? 2 then
          a2b_base64_loop rest 3 (Z.land this_ch 0x03) 0
            (bin_data ++
             [byte_of_Z (Z.lor (Z.shiftl leftchar 4) (Z.shiftr this_ch 2))])%list
        else
          a2b_base64_loop rest 0 0 0
            (bin_data ++ [byte_of_Z (Z.lor (Z.shiftl leftchar 6) this_ch)])%list
  end.

Definition a2b_base64 (data : bytes) : result bytes :=
  a2b_base64_loop data 0 0 0 [].

(** The inner [while (leftbits >= 6)] of [b2a_base64].  It runs
    [leftbits / 6] times; [fuel] bounds the iterations and the callers
    pass enough of it ([b2a_groups_enough_fuel]). *)
Fixpoint b2a_groups (fuel : nat) (leftchar leftbits : Z) (ascii_data : bytes)
    : Z * bytes :=
  match fuel with
  | O => (leftbits, ascii_data)
  | S fuel' =>
      if 6 <=? leftbits then
        let this_ch := Z.land (Z.shiftr leftchar (leftbits - 6)) 0x3f in
        b2a_groups fuel' leftchar (leftbits - 6)
          (ascii_data ++ [b2a_digit this_ch])%list
      else (leftbits, ascii_data)
  end.

(** The encoding loop of [b2a_base64] with [newline] off; [leftchar] is
    an [unsigned int] of 32 bits. *)
Fixpoint b2a_base64_loop (bin_data : bytes) (leftchar leftbits : Z)
    (ascii_data : bytes) : bytes :=
  match bin_data with
  | [] =>
      if leftbits =? 2 then
        (ascii_data ++
         [b2a_digit (Z.shiftl (Z.land leftchar 3) 4); pad_byte; pad_byte])%list
      else if leftbits =? 4 then
        (ascii_data ++
         [b2a_digit (Z.shiftl (Z.land leftchar 0xf) 2); pad_byte])%list
      else ascii_data
  | b :: rest =>
      let leftchar := Z.lor (Z.shiftl leftchar 8) (byte_val b) mod 2 ^ 32 in
      let leftbits := leftbits + 8 in
      let '(leftbits, ascii_data) :=
        b2a_groups (Z.to_nat leftbits) leftchar leftbits ascii_data in
      b2a_base64_loop rest leftchar leftbits ascii_data
  end.

Definition b2a_base64 (data : bytes) : bytes :=
  b2a_base64_loop data 0 0 [].

End binascii.

Module base64.

(** [str.encode('ascii')]: [None] stands for [UnicodeEncodeError]. *)
Definition encode_ascii (s : string) : option bytes :=
  let cs := list_ascii_of_string s in
  if forallb (fun c => char_val c <? 128) cs
  then Some (map byte_of_ascii cs)
  else None.

(** [_bytes_from_decode_data]: a [str] is encoded to ASCII; none of the
    other values [json.loads] builds supports the buffer protocol. *)
Definition _bytes_from_decode_data (s : json) : result bytes :=
  match s with
  | JStr s =>
      match encode_ascii s with
      | Some b => Ok b
      | None =>
          Raise (PyException "ValueError"
                   "string argument should contain only ASCII characters")
      end
  | _ =>
      Raise (PyException "TypeError"
               ("argument should be a bytes-like object or ASCII string, not '"
                ++ type_name s ++ "'"))
  end.

(** [b64decode(s)] with the defaults [altchars=None, validate=False] *)
Definition b64decode (s : json) : result bytes :=
  match _bytes_from_decode_data s with
  | Ok b => binascii.a2b_base64 b
  | Raise e => Raise e
  end.

(** [b64encode(s)] with the default [altchars=None] *)
Definition b64encode (s : bytes) : bytes := binascii.b2a_base64 s.

End base64.

(** [bytes.decode('utf-8')] on bytes below 0x80, each of which is the
    character of the same code point.  Sequences of several bytes are not
    modelled: [b64encode] produces none ([b64encode_is_ascii]), and its
    result is all the handler decodes. *)
Definition decode_utf8 (b : bytes) : string :=
  string_of_list_ascii (map ascii_of_byte b).

Definition bytes_of_string (s : string) : bytes :=
  map byte_of_ascii (list_ascii_of_string s).

(** ** Exceptions and effects of the handler *)

(** What the handler does besides computing its response: the calls into
    the merge library and the lines it logs, in order. *)
Inductive event : Type :=
| MailMerge_called (template_bytes : bytes)
| get_merge_fields_called
| merge_called (replacements : dict)
| write_called
| logger_error (msg : string).

Definition trace := list event.

Definition M (A : Type) : Type := trace -> result A * trace.

Definition ret {A} (a : A) : M A := fun t => (Ok a, t).

Definition bind {A B} (m : M A) (k : A -> M B) : M B :=
  fun t =>
    match m t with
    | (Ok a, t') => k a t'
    | (Raise e, t') => (Raise e, t')
    end.

Definition lift {A} (r : result A) : M A := fun t => (r, t).

Definition emit (ev : event) : M unit := fun t => (Ok tt, (t ++ [ev])%list).

(** A call into the library: recorded, then performed. *)
Definition call {A} (ev : event) (r : result A) : M A :=
  bind (emit ev) (fun _ => lift r).

(** [try: body / except Exception as e: handler e] *)
Definition try_except {A} (body : M A) (handler : exn -> M A) : M A :=
  fun t =>
    match body t with
    | (Ok a, t') => (Ok a, t')
    | (Raise e, t') => handler e t'
    end.

Declare Scope py_scope.
Delimit Scope py_scope with py.
Notation "x <- m ;; k" := (bind m (fun x => k))
  (at level 61, m at next level, right associativity) : py_scope.
Notation "m ;; k" := (bind m (fun _ => k))
  (at level 61, right associativity) : py_scope.
#[local] Open Scope py_scope.

Definition TypeError (msg : string) : exn := PyException "TypeError" msg.
Definition KeyError (msg : string) : exn := PyException "KeyError" msg.

(** [item in container], for a [str] item *)
Definition py_in (item : string) (container : json) : result bool :=
  match container with
  | JObj d => Ok (dict_mem item d)
  | JArr l =>
      Ok (existsb
            (fun v => match v with JStr s => String.eqb item s | _ => false end)
            l)
  | JStr s => Ok (substring_of item s)
  | _ =>
      Raise (TypeError
               ("argument of type '" ++ type_name container
                ++ "' is not iterable"))
  end.

Definition py_not_in (item : string) (container : json) : result bool :=
  match py_in item container with
  | Ok b => Ok (negb b)
  | Raise e => Raise e
  end.

(** [container[key]], for a [str] key *)
Definition py_getitem (container : json) (key : string) : result json :=
  match container with
  | JObj d =>
      match dict_get key d with
      | Some v => Ok v
      | None => Raise (KeyError ("'" ++ key ++ "'"))
      end
  | JArr _ =>
      Raise (TypeError "list indices must be integers or slices, not str")
  | JStr _ => Raise (TypeError "string indices must be integers, not 'str'")
  | _ =>
      Raise (TypeError
               ("'" ++ type_name container ++ "' object is not subscriptable"))
  end.

(** ** The merge library *)

(** The part of docx-mailmerge the handler uses, as one request finds
    it.  [document] is the state of a [MailMerge] object; [merge] changes
    it; [get_merge_fields] builds a new set on each call, listed here in
    the order [list()] iterates it; [write] gives the bytes it writes to
    the buffer.  Those bytes carry the time of writing (a zip archive
    stamps its entries), so that another request may find another
    [write]: see [with_write]. *)
Record MergeCapability : Type := {
  document : Type;
  MailMerge : bytes -> result document;
  get_merge_fields : document -> result (list string);
  merge : document -> dict -> result document;
  write : document -> result bytes
}.

(** ** Requests and responses *)

(** The request, as the handler sees it: what [request.get_json()]
    returns, or the exception it raises. *)
Record request : Type := { get_json : result json }.

Record response : Type := { body : json; status : Z }.

Definition jsonify (d : dict) : json := JObj d.

(** ** The routes *)

(** [GET /] *)
Definition home : response :=
  {| body := jsonify [("name", JStr "Document Mail Merge API");
                      ("version", JStr "1.0.0");
                      ("status", JStr "running")];
     status := 200 |}.

(** [POST /api/document-merge] *)

(** The loop over [data.items()]: the key of the first value that is not
    a [str]. *)
Fixpoint first_non_str (items : dict) : option string :=
  match items with
  | [] => None
  | (key, value) :: items' =>
      if negb (is_str value) then Some key else first_non_str items'
  end.

Section Handler.

Variable lib : MergeCapability.

(** [not request_data or 'template' not in request_data
     or 'data' not in request_data] *)
Definition missing_parameters (request_data : json) : result bool :=
  if negb (truthy request_data) then Ok true
  else
    match py_not_in "template" request_data with
    | Raise e => Raise e
    | Ok true => Ok true
    | Ok false => py_not_in "data" request_data
    end.

(** The [with] block: lines 80 to 103. *)
Definition merge_document (template_bytes : bytes) (data : dict)
    : M response :=
  document <- call (MailMerge_called template_bytes)
                   (MailMerge lib template_bytes) ;;
  available_fields <- call get_merge_fields_called
                           (get_merge_fields lib document) ;;
  document <- call (merge_called data) (merge lib document data) ;;
  output_bytes <- call write_called (write lib document) ;;
  let output_base64 := decode_utf8 (base64.b64encode output_bytes) in
  ret {| body := jsonify [("success", JBool true);
                          ("document", JStr output_base64);
                          ("fields", JArr (map JStr available_fields))];
         status := 200 |}.

Definition document_merge (request : request) : M response :=
  try_except
    (request_data <- lift (get_json request) ;;
     missing <- lift (missing_parameters request_data) ;;
     if (missing : bool) then
       ret {| body := jsonify
                [("success", JBool false);
                 ("error",
                  JStr "Missing required parameters: template and data")];
              status := 400 |}
     else
       template_base64 <- lift (py_getitem request_data "template") ;;
       data <- lift (py_getitem request_data "data") ;;
       match data with
       | JObj items =>
           match first_non_str items with
           | Some key =>
               ret {| body := jsonify
                        [("success", JBool false);
                         ("error",
                          JStr ("Data value for key '" ++ key
                                ++ "' must be a string"))];
                      status := 400 |}
           | None =>
               decoded <-
                 try_except
                   (template_bytes <- lift (base64.b64decode template_base64) ;;
                    ret (inl template_bytes))
                   (fun _ =>
                      ret (inr {| body := jsonify
                                    [("success", JBool false);
                                     ("error",
                                      JStr "Invalid base64 encoded template")];
                                  status := 400 |})) ;;
               match decoded with
               | inr early_return => ret early_return
               | inl template_bytes => merge_document template_bytes items
               end
           end
       | _ =>
           ret {| body := jsonify [("success", JBool false);
                                   ("error", JStr "Data must be an object")];
                  status := 400 |}
       end)
    (fun e =>
       emit (logger_error ("Error processing document: " ++ str_exn e)) ;;
       ret {| body := jsonify [("success", JBool false);
                               ("error", JStr (str_exn e))];
              status := 500 |}).

(** One request, from an empty trace. *)
Definition handle (request : request) : result response * trace :=
  document_merge request [].

End Handler.

(** ** Reading a response *)

Definition response_field (k : string) (r : response) : option json :=
  match body r with
  | JObj d => dict_get k d
  | _ => None
  end.

Definition success_body (output : bytes) (fields : list string) : json :=
  jsonify [("success", JBool true);
           ("document", JStr (decode_utf8 (base64.b64encode output)));
           ("fields", JArr (map JStr fields))].

Definition error_body (msg : string) : json :=
  jsonify [("success", JBool false); ("error", JStr msg)].

Definition client_error (msg : string) : response :=
  {| body := error_body msg; status := 400 |}.

Definition server_error (e : exn) : response :=
  {| body := error_body (str_exn e); status := 500 |}.

(** The line the generic [except] clause logs. *)
Definition log_line (e : exn) : event :=
  logger_error ("Error processing document: " ++ str_exn e).

(** ** The handler as a decision tree

    [outcome] spells out, case by case, the response and the trace of
    [handle]; [handle_outcome] proves the two equal.  The proofs below
    reason on the tree, the theorems are about [handle]. *)

Definition merge_outcome (lib : MergeCapability) (template_bytes : bytes)
    (data : dict) : result response * trace :=
  match MailMerge lib template_bytes with
  | Raise e =>
      (Ok (server_error e), [MailMerge_called template_bytes; log_line e])
  | Ok doc =>
      match get_merge_fields lib doc with
      | Raise e =>
          (Ok (server_error e),
           [MailMerge_called template_bytes; get_merge_fields_called;
            log_line e])
      | Ok fields =>
          match merge lib doc data with
          | Raise e =>
              (Ok (server_error e),
               [MailMerge_called template_bytes; get_merge_fields_called;
                merge_called data; log_line e])
          | Ok doc' =>
              match write lib doc' with
              | Raise e =>
                  (Ok (server_error e),
                   [MailMerge_called template_bytes; get_merge_fields_called;
                    merge_called data; write_called; log_line e])
              | Ok output =>
                  (Ok {| body := success_body output fields; status := 200 |},
                   [MailMerge_called template_bytes; get_merge_fields_called;
                    merge_called data; write_called])
              end
          end
      end
  end.

Definition outcome (lib : MergeCapability) (req : request)
    : result response * trace :=
  match get_json req with
  | Raise e => (Ok (server_error e), [log_line e])
  | Ok request_data =>
      match missing_parameters request_data with
      | Raise e => (Ok (server_error e), [log_line e])
      | Ok true =>
          (Ok (client_error "Missing required parameters: template and data"),
           [])
      | Ok false =>
          match py_getitem request_data "template" with
          | Raise e => (Ok (server_error e), [log_line e])
          | Ok template_base64 =>
              match py_getitem request_data "data" with
              | Raise e => (Ok (server_error e), [log_line e])
              | Ok (JObj items) =>
                  match first_non_str items with
                  | Some key =>
                      (Ok (client_error
                             ("Data value for key '" ++ key
                              ++ "' must be a string")), [])
                  | None =>
                      match base64.b64decode template_base64 with
                      | Raise _ =>
                          (Ok (client_error "Invalid base64 encoded template"),
                           [])
                      | Ok template_bytes =>
                          merge_outcome lib template_bytes items
                      end
                  end
              | Ok _ => (Ok (client_error "Data must be an object"), [])
              end
          end
      end
  end.

(** ** Vocabulary of the statements *)

(** The names the library enumerates from the bytes of a template: the
    [MailMerge] object is built, then asked for its merge fields. *)
Definition template_fields (lib : MergeCapability) (template_bytes : bytes)
    : result (list string) :=
  match MailMerge lib template_bytes with
  | Ok doc => get_merge_fields lib doc
  | Raise e => Raise e
  end.


(** One of the four calls raises [e], those before it having returned. *)
Inductive merge_raises (lib : MergeCapability) (tb : bytes) (data : dict)
    (e : exn) : Prop :=
| raises_opening : MailMerge lib tb = Raise e -> merge_raises lib tb data e
| raises_listing doc :
    MailMerge lib tb = Ok doc -> get_merge_fields lib doc = Raise e ->
    merge_raises lib tb data e
| raises_merging doc fs :
    MailMerge lib tb = Ok doc -> get_merge_fields lib doc = Ok fs ->
    merge lib doc data = Raise e -> merge_raises lib tb data e
| raises_writing doc fs doc' :
    MailMerge lib tb = Ok doc -> get_merge_fields lib doc = Ok fs ->
    merge lib doc data = Ok doc' -> write lib doc' = Raise e ->
    merge_raises lib tb data e.


(** A [data] mapping given by its string values. *)
Definition string_dict (data : list (string * string)) : dict :=
  map (fun kv => (fst kv, JStr (snd kv))) data.

(** A request whose body parsed. *)
Definition post (b : json) : request := {| get_json := Ok b |}.

(** ** Test doubles for the merge library *)

Definition BadZipFile (msg : string) : exn := PyException "BadZipFile" msg.

(** A double with a fixed set of fields.  Like [zipfile], on which
    docx-mailmerge opens its template, it refuses an input too short to
    hold the 22 bytes of a zip end-of-central-directory record; any other
    input is a document, which [merge] leaves as it is and [write] writes
    back. *)
Definition fixed_fields (fields : list string) : MergeCapability :=
  {| document := bytes;
     MailMerge := fun b =>
       if Z.of_nat (List.length b) <? 22
       then Raise (BadZipFile "File is not a zip file")
       else Ok b;
     get_merge_fields := fun _ => Ok fields;
     merge := fun d _ => Ok d;
     write := fun d => Ok d |}.

(** 24 bytes, and their base64 text. *)
Definition sample_template_bytes : bytes :=
  bytes_of_string "PK..client_name...date..".

Definition sample_template : string := "UEsuLmNsaWVudF9uYW1lLi4uZGF0ZS4u".

Definition sample_data : dict :=
  [("client_name", JStr "Acme"); ("date", JStr "2024-01-01")].

Definition sample_body : dict :=
  [("template", JStr sample_template); ("data", JObj sample_data)].

Definition sample_lib : MergeCapability :=
  fixed_fields ["client_name"; "date"].

Definition sample_response : response :=
  {| body := JObj [("success", JBool true);
                   ("document", JStr sample_template);
                   ("fields", JArr [JStr "client_name"; JStr "date"])];
     status := 200 |}.

Definition sample_trace : trace :=
  [MailMerge_called sample_template_bytes; get_merge_fields_called;
   merge_called sample_data; write_called].

(** Five bytes that are no zip archive. *)
Definition hello_body : dict :=
  [("template", JStr "aGVsbG8="); ("data", JObj [("name", JStr "x")])].

(** ** Auxiliary definitions of the codec proofs *)

(** One byte shifted into the 32-bit [leftchar] of the encoder. *)
Definition shift_in (leftchar x : Z) : Z :=
  Z.lor (Z.shiftl leftchar 8) x mod 2 ^ 32.

(** The four digits of three bytes. *)
Definition quad (a b c : Z) : bytes :=
  [binascii.b2a_digit (a / 4);
   binascii.b2a_digit (a mod 4 * 16 + b / 16);
   binascii.b2a_digit (b mod 16 * 4 + c / 64);
   binascii.b2a_digit (c mod 64)].

Definition is_ascii (b : byte) : bool := byte_val b <? 128.

(** Masks and shifts by constants as remainders and quotients. *)
Ltac to_div_mod :=
  change 0x3f with (Z.ones 6); change 0x0f with (Z.ones 4);
  change 0xf with (Z.ones 4); change 0x03 with (Z.ones 2);
  change 3 with (Z.ones 2);
  rewrite ?Z.land_ones, ?Z.shiftr_div_pow2, ?Z.shiftl_mul_pow2 by lia;
  cbn [Z.ones Z.pred Z.sub Z.add Z.opp Z.pos_sub Z.pow Z.pow_pos Pos.iter
       Z.mul Pos.mul Pos.add Pos.succ Z.shiftl Z.shiftr Pos.pred_double
       Z.succ_double Z.pred_double Z.double] in *.

(** ** Vocabulary of the further properties *)

(** A byte of the base64 alphabet, and the pad. *)
Definition is_digit (b : byte) : bool :=
  (binascii.a2b_digit b <? 64) && negb (byte_val b =? binascii.BASE64_PAD).

Definition is_pad (b : byte) : bool := byte_val b =? binascii.BASE64_PAD.

Definition is_digit_char (c : ascii) : bool := is_digit (byte_of_ascii c).

Definition is_pad_char (c : ascii) : bool := is_pad (byte_of_ascii c).

(** Every code point of the string is below 128. *)
Definition ascii_only (s : string) : bool :=
  forallb (fun c => char_val c <? 128) (list_ascii_of_string s).

Definition ValueError (msg : string) : exn := PyException "ValueError" msg.

(** The calls into the merge library among the events of a trace. *)
Definition is_library_call (ev : event) : bool :=
  match ev with
  | logger_error _ => false
  | _ => true
  end.

Definition library_calls (t : trace) : trace := filter is_library_call t.

(** The calls of the [with] block, in the order of the source. *)
Definition call_sequence (template_bytes : bytes) (data : dict) : trace :=
  [MailMerge_called template_bytes; get_merge_fields_called;
   merge_called data; write_called].

(** [isinstance(v, dict)] *)
Definition is_mapping (v : json) : bool :=
  match v with JObj _ => true | _ => false end.

(** A [bool], an [int] or a [float]: a value [in] cannot search. *)
Definition is_scalar (v : json) : bool :=
  match v with
  | JBool _ | JInt _ | JFloat _ => true
  | _ => false
  end.

(** A character above the ASCII range (e acute), for the examples. *)
Definition e_acute : ascii := ascii_of_nat 233.







(** Every leaf of the decision tree, for a run [H : handle _ _ = _];
    [L] is the lemma that equates [handle] with the tree. *)
Ltac outcome_leaves_with L H :=
  rewrite L in H; unfold outcome, merge_outcome in H;
  repeat match type of H with
         | context [match ?x with _ => _ end] => destruct x eqn:?
         end;
  injection H as <- <-.

(** * Proofs *)

#[local] Open Scope list_scope.
Import binascii.

(** ** The codec on examples *)

Example b64encode_foobar :
  decode_utf8 (base64.b64encode (bytes_of_string "foobar")) = "Zm9vYmFy" /\
  decode_utf8 (base64.b64encode (bytes_of_string "fooba")) = "Zm9vYmE=" /\
  decode_utf8 (base64.b64encode (bytes_of_string "foob")) = "Zm9vYg==" /\
  decode_utf8 (base64.b64encode []) = "".
Proof. repeat split; reflexivity. Qed.

Example b64decode_foobar :
  base64.b64decode (JStr "Zm9vYmFy") = Ok (bytes_of_string "foobar") /\
  base64.b64decode (JStr "Zm9vYmE=") = Ok (bytes_of_string "fooba") /\
  base64.b64decode (JStr "Zm9vYg==") = Ok (bytes_of_string "foob") /\
  base64.b64decode (JStr "Zm9v Yg= =") = Ok (bytes_of_string "foob") /\
  base64.b64decode (JStr "Zm9vYg=") =
    Raise (binascii.Error "Incorrect padding") /\
  base64.b64decode (JStr "Zm9vY") =
    Raise (binascii.Error
      "Invalid base64-encoded string: number of data characters (5) cannot be 1 more than a multiple of 4").
Proof. repeat split; reflexivity. Qed.

(** ** Bytes, masks and shifts *)

Lemma land_shiftl_small x y n :
  0 <= n -> 0 <= y < 2 ^ n -> Z.land (Z.shiftl x n) y = 0.
Proof.
  intros Hn Hy. apply Z.bits_inj'. intros i Hi.
  rewrite Z.land_spec, Z.bits_0.
  destruct (Z.lt_ge_cases i n) as [Hlt | Hge].
  - rewrite Z.shiftl_spec_low by assumption. reflexivity.
  - assert (Z.testbit y i = false) as ->; [| apply andb_false_r].
    destruct (Z.eq_dec y 0) as [-> | Hy0]; [apply Z.bits_0 |].
    apply Z.bits_above_log2; [lia |].
    apply Z.log2_lt_pow2; [lia |].
    apply Z.lt_le_trans with (2 ^ n); [lia |].
    apply Z.pow_le_mono_r; lia.
Qed.

Lemma lor_shiftl_add x y n :
  0 <= n -> 0 <= y < 2 ^ n -> Z.lor (Z.shiftl x n) y = x * 2 ^ n + y.
Proof.
  intros Hn Hy.
  pose proof (Z.add_lor_land (Z.shiftl x n) y) as H.
  rewrite land_shiftl_small in H by assumption.
  rewrite <- (Z.shiftl_mul_pow2 x n) by assumption. lia.
Qed.

Lemma byte_val_range b : 0 <= byte_val b < 256.
Proof.
  unfold byte_val. pose proof (Byte.to_N_bounded b). lia.
Qed.

Lemma byte_of_Z_val b : byte_of_Z (byte_val b) = b.
Proof.
  unfold byte_of_Z. rewrite Z.mod_small by apply byte_val_range.
  unfold byte_val. rewrite N2Z.id, Byte.of_to_N. reflexivity.
Qed.

Lemma shift_in_eq l x :
  0 <= x < 256 -> shift_in l x = (l * 256 + x) mod 4294967296.
Proof. intros. unfold shift_in. rewrite lor_shiftl_add by lia. reflexivity. Qed.

Lemma shift_in_nonneg l x : 0 <= shift_in l x.
Proof. unfold shift_in. apply Z.mod_pos_bound. reflexivity. Qed.

(** The digits the encoder cuts out of [leftchar], as arithmetic on the
    bytes shifted in; the bytes shifted in before them do not matter. *)

Lemma sextet0 lc a :
  0 <= lc -> 0 <= a < 256 ->
  Z.land (Z.shiftr (shift_in lc a) (8 - 6)) 0x3f = a / 4.
Proof.
  intros. rewrite shift_in_eq by lia. to_div_mod.
  Z.div_mod_to_equations. lia.
Qed.

Lemma sextet1 lc a b :
  0 <= lc -> 0 <= a < 256 -> 0 <= b < 256 ->
  Z.land (Z.shiftr (shift_in (shift_in lc a) b) (10 - 6)) 0x3f =
  a mod 4 * 16 + b / 16.
Proof.
  intros. rewrite !shift_in_eq by lia. to_div_mod.
  Z.div_mod_to_equations. lia.
Qed.

Lemma sextet2 l b c :
  0 <= l -> 0 <= b < 256 -> 0 <= c < 256 ->
  Z.land (Z.shiftr (shift_in (shift_in l b) c) (12 - 6)) 0x3f =
  b mod 16 * 4 + c / 64.
Proof.
  intros. rewrite !shift_in_eq by lia. to_div_mod.
  Z.div_mod_to_equations. lia.
Qed.

Lemma sextet3 l c :
  0 <= l -> 0 <= c < 256 ->
  Z.land (Z.shiftr (shift_in l c) (12 - 6 - 6)) 0x3f = c mod 64.
Proof.
  intros. rewrite !shift_in_eq by lia. to_div_mod.
  Z.div_mod_to_equations. lia.
Qed.

Lemma sextet1_last lc a :
  0 <= lc -> 0 <= a < 256 ->
  Z.shiftl (Z.land (shift_in lc a) 3) 4 = a mod 4 * 16 + 0 / 16.
Proof.
  intros. rewrite shift_in_eq by lia. to_div_mod.
  Z.div_mod_to_equations. lia.
Qed.

Lemma sextet2_last l b :
  0 <= l -> 0 <= b < 256 ->
  Z.shiftl (Z.land (shift_in l b) 0xf) 2 = b mod 16 * 4 + 0 / 64.
Proof.
  intros. rewrite !shift_in_eq by lia. to_div_mod.
  Z.div_mod_to_equations. lia.
Qed.

Lemma sextet_ranges a b c :
  0 <= a < 256 -> 0 <= b < 256 -> 0 <= c < 256 ->
  0 <= a / 4 < 64 /\ 0 <= a mod 4 * 16 + b / 16 < 64 /\
  0 <= b mod 16 * 4 + c / 64 < 64 /\ 0 <= c mod 64 < 64.
Proof. intros. Z.div_mod_to_equations. lia. Qed.

(** The bytes the decoder puts together from the digits of a quad. *)

Lemma octet0 a b :
  0 <= a < 256 -> 0 <= b < 256 ->
  Z.lor (Z.shiftl (a / 4) 2) (Z.shiftr (a mod 4 * 16 + b / 16) 4) = a.
Proof.
  intros. rewrite lor_shiftl_add; to_div_mod; Z.div_mod_to_equations; lia.
Qed.

Lemma octet1 a b c :
  0 <= a < 256 -> 0 <= b < 256 -> 0 <= c < 256 ->
  Z.lor (Z.shiftl (Z.land (a mod 4 * 16 + b / 16) 0x0f) 4)
        (Z.shiftr (b mod 16 * 4 + c / 64) 2) = b.
Proof.
  intros. rewrite lor_shiftl_add; to_div_mod; Z.div_mod_to_equations; lia.
Qed.

Lemma octet2 b c :
  0 <= b < 256 -> 0 <= c < 256 ->
  Z.lor (Z.shiftl (Z.land (b mod 16 * 4 + c / 64) 0x03) 6) (c mod 64) = c.
Proof.
  intros. rewrite lor_shiftl_add; to_div_mod; Z.div_mod_to_equations; lia.
Qed.

(** ** The two tables *)

(** On the 64 digits, [table_a2b_base64] inverts [table_b2a_base64]; no
    digit is the pad character; every digit is an ASCII character. *)

Lemma digits_check :
  forallb (fun n => let s := Z.of_nat n in
                    negb (byte_val (b2a_digit s) =? BASE64_PAD)
                    && (a2b_digit (b2a_digit s) =? s)
                    && (byte_val (b2a_digit s) <? 128))
          (seq 0 64) = true.
Proof. vm_compute. reflexivity. Qed.

Lemma b2a_digit_facts s :
  0 <= s < 64 ->
  (byte_val (b2a_digit s) =? BASE64_PAD) = false /\
  a2b_digit (b2a_digit s) = s /\
  byte_val (b2a_digit s) < 128.
Proof.
  intros Hs. pose proof digits_check as H.
  rewrite forallb_forall in H. specialize (H (Z.to_nat s)).
  rewrite Z2Nat.id in H by lia. cbv zeta in H.
  assert (In (Z.to_nat s) (seq 0 64)) as Hin by (apply in_seq; lia).
  apply H in Hin. apply andb_prop in Hin as [Hin H3].
  apply andb_prop in Hin as [H1 H2].
  apply negb_true_iff in H1. apply Z.eqb_eq in H2. apply Z.ltb_lt in H3.
  auto.
Qed.

Lemma string_get_In s : forall n c,
  String.get n s = Some c -> In c (list_ascii_of_string s).
Proof.
  induction s as [| a s IH]; intros n c H; [destruct n; discriminate |].
  destruct n as [| n]; cbn in H.
  - injection H as ->. left. reflexivity.
  - right. eapply IH. eassumption.
Qed.

Lemma b2a_digit_ascii s : is_ascii (b2a_digit s) = true.
Proof.
  unfold b2a_digit.
  destruct (String.get (Z.to_nat s) table_b2a_base64) as [c |] eqn:E;
    [| reflexivity].
  apply string_get_In in E.
  assert (forallb (fun c => is_ascii (byte_of_ascii c))
            (list_ascii_of_string table_b2a_base64) = true) as H
    by (vm_compute; reflexivity).
  rewrite forallb_forall in H. apply H. assumption.
Qed.

(** ** The decoding loop, one input byte at a time *)

Section DecoderSteps.

Variable s : Z.
Hypothesis Hs : 0 <= s < 64.
Variables (rest : bytes) (leftchar pads : Z) (bin_data : bytes).

Lemma a2b_step_0 :
  a2b_base64_loop (b2a_digit s :: rest) 0 leftchar pads bin_data =
  a2b_base64_loop rest 1 s 0 bin_data.
Proof.
  destruct (b2a_digit_facts s Hs) as (Hp & Hd & _).
  cbn [a2b_base64_loop]. rewrite Hp, Hd.
  destruct (Z.leb_spec 64 s); [lia | reflexivity].
Qed.

Lemma a2b_step_1 :
  a2b_base64_loop (b2a_digit s :: rest) 1 leftchar pads bin_data =
  a2b_base64_loop rest 2 (Z.land s 0x0f) 0
    (bin_data ++ [byte_of_Z (Z.lor (Z.shiftl leftchar 2) (Z.shiftr s 4))]).
Proof.
  destruct (b2a_digit_facts s Hs) as (Hp & Hd & _).
  cbn [a2b_base64_loop]. rewrite Hp, Hd.
  destruct (Z.leb_spec 64 s); [lia | reflexivity].
Qed.

Lemma a2b_step_2 :
  a2b_base64_loop (b2a_digit s :: rest) 2 leftchar pads bin_data =
  a2b_base64_loop rest 3 (Z.land s 0x03) 0
    (bin_data ++ [byte_of_Z (Z.lor (Z.shiftl leftchar 4) (Z.shiftr s 2))]).
Proof.
  destruct (b2a_digit_facts s Hs) as (Hp & Hd & _).
  cbn [a2b_base64_loop]. rewrite Hp, Hd.
  destruct (Z.leb_spec 64 s); [lia | reflexivity].
Qed.

Lemma a2b_step_3 :
  a2b_base64_loop (b2a_digit s :: rest) 3 leftchar pads bin_data =
  a2b_base64_loop rest 0 0 0
    (bin_data ++ [byte_of_Z (Z.lor (Z.shiftl leftchar 6) s)]).
Proof.
  destruct (b2a_digit_facts s Hs) as (Hp & Hd & _).
  cbn [a2b_base64_loop]. rewrite Hp, Hd.
  destruct (Z.leb_spec 64 s); [lia | reflexivity].
Qed.

End DecoderSteps.

Lemma a2b_pad_pad leftchar bin_data :
  a2b_base64_loop [pad_byte; pad_byte] 2 leftchar 0 bin_data = Ok bin_data.
Proof. reflexivity. Qed.

Lemma a2b_pad leftchar bin_data :
  a2b_base64_loop [pad_byte] 3 leftchar 0 bin_data = Ok bin_data.
Proof. reflexivity. Qed.

(** ** The encoding loop, one input byte at a time *)

Lemma b2a_step_0 a rest lc acc :
  b2a_base64_loop (a :: rest) lc 0 acc =
  b2a_base64_loop rest (shift_in lc (byte_val a)) 2
    (acc ++ [b2a_digit (Z.land (Z.shiftr (shift_in lc (byte_val a)) (8 - 6)) 0x3f)]).
Proof. reflexivity. Qed.

Lemma b2a_step_2 a rest lc acc :
  b2a_base64_loop (a :: rest) lc 2 acc =
  b2a_base64_loop rest (shift_in lc (byte_val a)) 4
    (acc ++ [b2a_digit (Z.land (Z.shiftr (shift_in lc (byte_val a)) (10 - 6)) 0x3f)]).
Proof. reflexivity. Qed.

Lemma b2a_step_4 a rest lc acc :
  b2a_base64_loop (a :: rest) lc 4 acc =
  b2a_base64_loop rest (shift_in lc (byte_val a)) 0
    ((acc ++ [b2a_digit (Z.land (Z.shiftr (shift_in lc (byte_val a)) (12 - 6)) 0x3f)])
      ++ [b2a_digit (Z.land (Z.shiftr (shift_in lc (byte_val a)) (12 - 6 - 6)) 0x3f)]).
Proof. reflexivity. Qed.

(** The inner loop is given enough fuel: it stops on [leftbits < 6]. *)

Lemma b2a_groups_done fuel : forall lc lb acc,
  lb < 6 * (Z.of_nat fuel + 1) ->
  fst (b2a_groups fuel lc lb acc) < 6.
Proof.
  induction fuel as [| fuel IH]; intros lc lb acc H; cbn [b2a_groups].
  - cbn [fst]. lia.
  - destruct (Z.leb_spec 6 lb); [apply IH; lia | cbn [fst]; lia].
Qed.

Lemma b2a_groups_enough_fuel leftchar leftbits ascii_data :
  0 <= leftbits ->
  fst (b2a_groups (Z.to_nat leftbits) leftchar leftbits ascii_data) < 6.
Proof. intros H. apply b2a_groups_done. lia. Qed.

Lemma b2a_groups_acc fuel : forall lc lb acc,
  b2a_groups fuel lc lb acc =
  (fst (b2a_groups fuel lc lb []), acc ++ snd (b2a_groups fuel lc lb [])).
Proof.
  induction fuel as [| fuel IH]; intros lc lb acc; cbn [b2a_groups].
  - cbn. rewrite app_nil_r. reflexivity.
  - destruct (6 <=? lb).
    + rewrite IH. rewrite (IH lc (lb - 6) ([] ++ _)). cbn [fst snd].
      rewrite <- app_assoc. reflexivity.
    + cbn. rewrite app_nil_r. reflexivity.
Qed.

Lemma b2a_loop_acc bs : forall lc lb acc,
  b2a_base64_loop bs lc lb acc = acc ++ b2a_base64_loop bs lc lb [].
Proof.
  induction bs as [| b bs IH]; intros lc lb acc; cbn [b2a_base64_loop].
  - destruct (lb =? 2); [reflexivity |].
    destruct (lb =? 4); [reflexivity |]. rewrite app_nil_r. reflexivity.
  - cbv zeta. rewrite b2a_groups_acc.
    destruct (b2a_groups _ _ _ []) as [lb' out] eqn:E. cbn [fst snd].
    rewrite IH. rewrite (IH _ _ out). rewrite app_assoc. reflexivity.
Qed.

Lemma b2a_block a b c rest lc :
  0 <= lc ->
  exists lc', 0 <= lc' /\
    b2a_base64_loop (a :: b :: c :: rest) lc 0 [] =
    quad (byte_val a) (byte_val b) (byte_val c) ++ b2a_base64_loop rest lc' 0 [].
Proof.
  intros Hlc.
  pose proof (byte_val_range a). pose proof (byte_val_range b).
  pose proof (byte_val_range c).
  exists (shift_in (shift_in (shift_in lc (byte_val a)) (byte_val b)) (byte_val c)).
  split; [apply shift_in_nonneg |].
  rewrite b2a_step_0, b2a_step_2, b2a_step_4.
  rewrite sextet0, sextet1, sextet2, sextet3
    by (assumption || apply shift_in_nonneg).
  rewrite b2a_loop_acc. reflexivity.
Qed.

Lemma b2a_last1 a lc :
  0 <= lc ->
  b2a_base64_loop [a] lc 0 [] =
  [b2a_digit (byte_val a / 4); b2a_digit (byte_val a mod 4 * 16 + 0 / 16);
   pad_byte; pad_byte].
Proof.
  intros Hlc. pose proof (byte_val_range a).
  rewrite b2a_step_0. cbn [b2a_base64_loop].
  change (2 =? 2) with true. cbv iota.
  rewrite sextet0, sextet1_last by assumption. reflexivity.
Qed.

Lemma b2a_last2 a b lc :
  0 <= lc ->
  b2a_base64_loop [a; b] lc 0 [] =
  [b2a_digit (byte_val a / 4);
   b2a_digit (byte_val a mod 4 * 16 + byte_val b / 16);
   b2a_digit (byte_val b mod 16 * 4 + 0 / 64); pad_byte].
Proof.
  intros Hlc. pose proof (byte_val_range a). pose proof (byte_val_range b).
  rewrite b2a_step_0, b2a_step_2. cbn [b2a_base64_loop].
  change (4 =? 2) with false. change (4 =? 4) with true. cbv iota.
  rewrite sextet0, sextet1, sextet2_last by (assumption || apply shift_in_nonneg).
  reflexivity.
Qed.

(** ** Decoding what the encoder produced *)

Lemma a2b_b2a_loop n : forall bs lc out,
  (List.length bs <= n)%nat -> 0 <= lc ->
  a2b_base64_loop (b2a_base64_loop bs lc 0 []) 0 0 0 out = Ok (out ++ bs).
Proof.
  induction n as [| n IH]; intros bs lc out Hlen Hlc.
  - destruct bs; [| cbn in Hlen; lia]. cbn. rewrite app_nil_r. reflexivity.
  - destruct bs as [| a [| b [| c rest]]].
    + cbn. rewrite app_nil_r. reflexivity.
    + rewrite b2a_last1 by assumption.
      pose proof (byte_val_range a) as Ha.
      destruct (sextet_ranges (byte_val a) 0 0 Ha) as (R0 & R1 & _); [lia | lia |].
      rewrite a2b_step_0, a2b_step_1 by assumption.
      rewrite octet0 by lia. rewrite byte_of_Z_val. apply a2b_pad_pad.
    + rewrite b2a_last2 by assumption.
      pose proof (byte_val_range a) as Ha. pose proof (byte_val_range b) as Hb.
      destruct (sextet_ranges (byte_val a) (byte_val b) 0 Ha Hb) as (R0 & R1 & R2 & _); [lia |].
      rewrite a2b_step_0, a2b_step_1, a2b_step_2 by assumption.
      rewrite octet0, octet1 by lia. rewrite !byte_of_Z_val.
      rewrite a2b_pad. rewrite <- app_assoc. reflexivity.
    + destruct (b2a_block a b c rest lc Hlc) as (lc' & Hlc' & ->).
      pose proof (byte_val_range a) as Ha. pose proof (byte_val_range b) as Hb.
      pose proof (byte_val_range c) as Hc.
      destruct (sextet_ranges _ _ _ Ha Hb Hc) as (R0 & R1 & R2 & R3).
      unfold quad. cbn [app].
      rewrite a2b_step_0, a2b_step_1, a2b_step_2, a2b_step_3 by assumption.
      rewrite octet0, octet1, octet2 by lia. rewrite !byte_of_Z_val.
      rewrite IH by (cbn in Hlen; lia || assumption).
      rewrite <- !app_assoc. reflexivity.
Qed.

Theorem a2b_b2a_base64 bs : a2b_base64 (b2a_base64 bs) = Ok bs.
Proof.
  unfold a2b_base64, b2a_base64.
  apply (a2b_b2a_loop (List.length bs)); [apply Nat.le_refl | lia].
Qed.

(** The encoder's output is ASCII, so that [decode('utf-8')] and the
    [encode('ascii')] of [b64decode] undo each other on it. *)

Lemma char_val_byte b : char_val (ascii_of_byte b) = byte_val b.
Proof.
  unfold char_val, byte_val. rewrite ascii_of_byte_via_N.
  rewrite N_ascii_embedding; [reflexivity |].
  pose proof (Byte.to_N_bounded b). lia.
Qed.

Lemma b2a_groups_ascii fuel : forall lc lb acc,
  forallb is_ascii acc = true ->
  forallb is_ascii (snd (b2a_groups fuel lc lb acc)) = true.
Proof.
  induction fuel as [| fuel IH]; intros lc lb acc Hacc; cbn [b2a_groups].
  - assumption.
  - destruct (6 <=? lb); [| assumption].
    apply IH. rewrite forallb_app, Hacc. cbn. rewrite b2a_digit_ascii.
    reflexivity.
Qed.

Lemma b2a_loop_ascii bs : forall lc lb acc,
  forallb is_ascii acc = true ->
  forallb is_ascii (b2a_base64_loop bs lc lb acc) = true.
Proof.
  induction bs as [| b bs IH]; intros lc lb acc Hacc; cbn [b2a_base64_loop].
  - destruct (lb =? 2); [| destruct (lb =? 4)];
      rewrite ?forallb_app, ?Hacc; cbn; rewrite ?b2a_digit_ascii; auto.
  - cbv zeta.
    pose proof (b2a_groups_ascii (Z.to_nat (lb + 8))
                  (Z.lor (Z.shiftl lc 8) (byte_val b) mod 2 ^ 32)
                  (lb + 8) acc Hacc) as H.
    destruct (b2a_groups _ _ _ acc) as [lb' out]. cbn [snd] in H.
    apply IH. assumption.
Qed.

Lemma b64encode_is_ascii bs : forallb is_ascii (base64.b64encode bs) = true.
Proof. apply b2a_loop_ascii. reflexivity. Qed.

Lemma encode_ascii_decode_utf8 b :
  forallb is_ascii b = true ->
  base64.encode_ascii (decode_utf8 b) = Some b.
Proof.
  intros H. unfold base64.encode_ascii, decode_utf8.
  rewrite list_ascii_of_string_of_list_ascii.
  assert (forallb (fun c => char_val c <? 128) (map ascii_of_byte b) = true)
    as ->.
  { induction b as [| x b IH]; [reflexivity |]. cbn in *.
    apply andb_prop in H as [Hx Hb]. rewrite char_val_byte.
    unfold is_ascii in Hx. rewrite Hx. apply IH. assumption. }
  rewrite map_map.
  rewrite (map_ext _ (fun x => x)) by (intros x; apply byte_of_ascii_of_byte).
  rewrite map_id. reflexivity.
Qed.

Theorem b64decode_b64encode bs :
  base64.b64decode (JStr (decode_utf8 (base64.b64encode bs))) = Ok bs.
Proof.
  unfold base64.b64decode, base64._bytes_from_decode_data.
  rewrite encode_ascii_decode_utf8 by apply b64encode_is_ascii.
  apply a2b_b2a_base64.
Qed.

(** ** The handler on examples *)

Example home_is_running :
  status home = 200 /\ response_field "status" home = Some (JStr "running").
Proof. split; reflexivity. Qed.

Example merge_scenario :
  handle sample_lib (post (JObj sample_body)) =
  (Ok sample_response, sample_trace).
Proof. reflexivity. Qed.

Example amount_scenario :
  handle sample_lib
    (post (JObj [("template", JStr sample_template);
                 ("data", JObj [("amount", JInt 42)])])) =
  (Ok {| body := JObj [("success", JBool false);
                       ("error",
                        JStr "Data value for key 'amount' must be a string")];
         status := 400 |}, []).
Proof. reflexivity. Qed.

(** ** The handler and its decision tree *)

Lemma handle_outcome lib req : handle lib req = outcome lib req.
Proof.
  unfold handle, outcome, document_merge, try_except, bind, lift.
  destruct (get_json req) as [rd | e]; [| reflexivity].
  destruct (missing_parameters rd) as [[|] | e]; try reflexivity.
  destruct (py_getitem rd "template") as [t | e]; [| reflexivity].
  destruct (py_getitem rd "data") as [data | e]; [| reflexivity].
  destruct data as [| b | n | f | s | l | items]; try reflexivity.
  destruct (first_non_str items) as [key |]; [reflexivity |].
  destruct (base64.b64decode t) as [tb | e]; [| reflexivity].
  unfold merge_outcome, merge_document, call, bind, emit, lift. cbn.
  destruct (MailMerge lib tb) as [doc | e]; [| reflexivity].
  destruct (get_merge_fields lib doc) as [fs | e]; [| reflexivity].
  destruct (merge lib doc items) as [doc' | e]; [| reflexivity].
  destruct (write lib doc') as [out | e]; reflexivity.
Qed.

(** The handler answers every request: no exception leaves it. *)

Lemma handle_returns lib req : exists resp tr, handle lib req = (Ok resp, tr).
Proof.
  rewrite handle_outcome. unfold outcome, merge_outcome.
  repeat match goal with
         | |- context [match ?x with _ => _ end] => destruct x
         end; eauto.
Qed.

Lemma py_getitem_inv rd k v :
  py_getitem rd k = Ok v -> exists d, rd = JObj d /\ dict_get k d = Some v.
Proof.
  destruct rd; cbn; try discriminate.
  destruct (dict_get k d) eqn:E; [| discriminate].
  intros [= ->]. eauto.
Qed.

Lemma py_getitem_obj d k v :
  dict_get k d = Some v -> py_getitem (JObj d) k = Ok v.
Proof. intros H. cbn. rewrite H. reflexivity. Qed.

Lemma missing_parameters_obj d t v :
  dict_get "template" d = Some t -> dict_get "data" d = Some v ->
  missing_parameters (JObj d) = Ok false.
Proof.
  intros Ht Hv. unfold missing_parameters, py_not_in, py_in, dict_mem.
  rewrite Ht, Hv. destruct d; [discriminate | reflexivity].
Qed.

Lemma handle_validated lib req d t items :
  get_json req = Ok (JObj d) ->
  dict_get "template" d = Some t ->
  dict_get "data" d = Some (JObj items) ->
  first_non_str items = None ->
  handle lib req =
  match base64.b64decode t with
  | Raise _ => (Ok (client_error "Invalid base64 encoded template"), [])
  | Ok template_bytes => merge_outcome lib template_bytes items
  end.
Proof.
  intros Hj Ht Hd Hv. rewrite handle_outcome. unfold outcome.
  rewrite Hj, (missing_parameters_obj d t _ Ht Hd).
  rewrite (py_getitem_obj _ _ _ Ht), (py_getitem_obj _ _ _ Hd), Hv.
  reflexivity.
Qed.


Lemma first_non_str_string_dict data : first_non_str (string_dict data) = None.
Proof. induction data as [| [k v] data IH]; [reflexivity | exact IH]. Qed.

Lemma first_non_str_some items :
  (exists k v, In (k, v) items /\ is_str v = false) ->
  exists key v, first_non_str items = Some key /\ In (key, v) items /\
                is_str v = false.
Proof.
  induction items as [| [k v] items IH]; intros (k0 & v0 & Hin & Hv).
  - destruct Hin.
  - cbn [first_non_str]. destruct (is_str v) eqn:E; cbn [negb].
    + destruct Hin as [[= -> ->] | Hin]; [congruence |].
      destruct IH as (key & v' & H1 & H2 & H3); [eauto |].
      exists key, v'. repeat split; [assumption | right; assumption | assumption].
    + exists k, v. repeat split; [left; reflexivity | assumption].
Qed.

Lemma prefix_of_app p s : prefix_of p (p ++ s)%string = true.
Proof.
  induction p as [| a p IH]; [reflexivity |]. cbn.
  rewrite Ascii.eqb_refl. exact IH.
Qed.

Lemma substring_of_app pre sub post :
  substring_of sub (pre ++ sub ++ post)%string = true.
Proof.
  induction pre as [| a pre IH]; cbn [String.append].
  - destruct sub; [destruct post; reflexivity |]. cbn.
    rewrite Ascii.eqb_refl, prefix_of_app. reflexivity.
  - cbn [substring_of]. rewrite IH. apply orb_true_r.
Qed.

Lemma b64decode_non_str v :
  is_str v = false -> exists e, base64.b64decode v = Raise e.
Proof. destruct v; cbn; try discriminate; eauto. Qed.


Lemma merge_outcome_raises lib tb items e :
  merge_raises lib tb items e ->
  exists calls,
    merge_outcome lib tb items = (Ok (server_error e), calls ++ [log_line e]).
Proof.
  unfold merge_outcome.
  intros [H1 | doc H1 H2 | doc fs H1 H2 H3 | doc fs doc' H1 H2 H3 H4];
    rewrite ?H1, ?H2, ?H3, ?H4.
  - exists [MailMerge_called tb]. reflexivity.
  - exists [MailMerge_called tb; get_merge_fields_called]. reflexivity.
  - exists [MailMerge_called tb; get_merge_fields_called; merge_called items].
    reflexivity.
  - exists [MailMerge_called tb; get_merge_fields_called; merge_called items;
            write_called]. reflexivity.
Qed.

Lemma merge_outcome_success_inv lib tb items resp tr :
  merge_outcome lib tb items = (Ok resp, tr) -> status resp = 200 ->
  exists doc fs doc' out,
    MailMerge lib tb = Ok doc /\
    get_merge_fields lib doc = Ok fs /\
    merge lib doc items = Ok doc' /\
    write lib doc' = Ok out /\
    resp = {| body := success_body out fs; status := 200 |} /\
    tr = [MailMerge_called tb; get_merge_fields_called;
          merge_called items; write_called].
Proof.
  unfold merge_outcome. intros H Hs.
  destruct (MailMerge lib tb) as [doc | e] eqn:E1;
    [| injection H as <- <-; discriminate].
  destruct (get_merge_fields lib doc) as [fs | e] eqn:E2;
    [| injection H as <- <-; discriminate].
  destruct (merge lib doc items) as [doc' | e] eqn:E3;
    [| injection H as <- <-; discriminate].
  destruct (write lib doc') as [out | e] eqn:E4;
    [| injection H as <- <-; discriminate].
  injection H as <- <-. exists doc, fs, doc', out.
  repeat split; assumption.
Qed.

(** A 200 response comes from the last line of the [with] block only. *)

Lemma success_inv lib req resp tr :
  handle lib req = (Ok resp, tr) -> status resp = 200 ->
  exists d t items tb doc fs doc' out,
    get_json req = Ok (JObj d) /\
    dict_get "template" d = Some t /\
    dict_get "data" d = Some (JObj items) /\
    first_non_str items = None /\
    base64.b64decode t = Ok tb /\
    MailMerge lib tb = Ok doc /\
    get_merge_fields lib doc = Ok fs /\
    merge lib doc items = Ok doc' /\
    write lib doc' = Ok out /\
    resp = {| body := success_body out fs; status := 200 |} /\
    tr = [MailMerge_called tb; get_merge_fields_called;
          merge_called items; write_called].
Proof.
  rewrite handle_outcome. unfold outcome. intros H Hs.
  destruct (get_json req) as [rd | e] eqn:Ej;
    [| injection H as <- <-; discriminate].
  destruct (missing_parameters rd) as [[|] | e];
    try (injection H as <- <-; discriminate).
  destruct (py_getitem rd "template") as [t | e] eqn:Et;
    [| injection H as <- <-; discriminate].
  destruct (py_getitem rd "data") as [data | e] eqn:Ed;
    [| injection H as <- <-; discriminate].
  apply py_getitem_inv in Et as (d & -> & Et).
  apply py_getitem_inv in Ed as (d' & [= <-] & Ed).
  destruct data as [| b | n | f | s | l | items];
    try (injection H as <- <-; discriminate).
  destruct (first_non_str items) as [key |] eqn:Ev;
    [injection H as <- <-; discriminate |].
  destruct (base64.b64decode t) as [tb | e] eqn:Eb;
    [| injection H as <- <-; discriminate].
  destruct (merge_outcome_success_inv _ _ _ _ _ H Hs)
    as (doc & fs & doc' & out & H1 & H2 & H3 & H4 & H5 & H6).
  exists d, t, items, tb, doc, fs, doc', out. repeat split; assumption.
Qed.

(** ** Validation of mapping bodies *)

(** A body that is [None] or empty, and a mapping body that fails one of
    the checks of lines 46 to 68, are answered 400 without any call into
    the merge library. *)

Lemma falsy_body_is_client_error lib req rd :
  get_json req = Ok rd -> truthy rd = false ->
  handle lib req =
  (Ok (client_error "Missing required parameters: template and data"), []).
Proof.
  intros Hj Hf. rewrite handle_outcome. unfold outcome, missing_parameters.
  rewrite Hj, Hf. reflexivity.
Qed.

Lemma mapping_validation_is_client_error lib req d :
  get_json req = Ok (JObj d) ->
  dict_get "template" d = None \/ dict_get "data" d = None \/
  (exists v, dict_get "data" d = Some v /\
             match v with JObj _ => False | _ => True end) \/
  (exists items k v, dict_get "data" d = Some (JObj items) /\
                     In (k, v) items /\ is_str v = false) ->
  exists msg,
    handle lib req =
    (Ok {| body := jsonify [("success", JBool false); ("error", JStr msg)];
           status := 400 |}, []).
Proof.
  intros Hj H. rewrite handle_outcome. unfold outcome. rewrite Hj.
  unfold missing_parameters, py_not_in, py_in, dict_mem.
  destruct (truthy (JObj d)); cbn [negb]; [| eexists; reflexivity].
  destruct (dict_get "template" d) as [t |] eqn:Et; cbn [negb];
    [| eexists; reflexivity].
  destruct (dict_get "data" d) as [data |] eqn:Ed; cbn [negb];
    [| eexists; reflexivity].
  rewrite (py_getitem_obj _ _ _ Et), (py_getitem_obj _ _ _ Ed).
  destruct H as [H | [H | [(v & [= <-] & H) | (items & k & v & [= ->] & H)]]];
    try discriminate.
  - destruct data; cbn in H; try contradiction; eexists; reflexivity.
  - destruct (first_non_str_some items) as (key & v' & -> & _);
      [eauto | eexists; reflexivity].
Qed.

(** A list body that holds both names passes line 46 and fails on
    [request_data['template']]. *)

Lemma list_body_is_server_error lib :
  handle lib (post (JArr [JStr "template"; JStr "data"])) =
  (Ok {| body := jsonify
           [("success", JBool false);
            ("error", JStr "list indices must be integers or slices, not str")];
         status := 500 |},
   [logger_error
      "Error processing document: list indices must be integers or slices, not str"]).
Proof. reflexivity. Qed.

(** ** The claims *)

(** Claim C1.  In a 200 response, [fields] lists the names the merge
    library enumerates from the decoded template bytes; they are listed
    before [merge] is called (the trace), and any other 200 response for
    the same [template], whatever its [data], carries the same [fields]. *)
Theorem fields_from_template lib req resp tr :
  handle lib req = (Ok resp, tr) -> status resp = 200 ->
  exists d t items tb fs,
    get_json req = Ok (JObj d) /\
    dict_get "template" d = Some t /\
    dict_get "data" d = Some (JObj items) /\
    base64.b64decode t = Ok tb /\
    template_fields lib tb = Ok fs /\
    response_field "fields" resp = Some (JArr (map JStr fs)) /\
    tr = [MailMerge_called tb; get_merge_fields_called;
          merge_called items; write_called] /\
    forall req' resp' tr' d',
      get_json req' = Ok (JObj d') -> dict_get "template" d' = Some t ->
      handle lib req' = (Ok resp', tr') -> status resp' = 200 ->
      response_field "fields" resp' = response_field "fields" resp.
Proof.
  intros H Hs.
  destruct (success_inv _ _ _ _ H Hs)
    as (d & t & items & tb & doc & fs & doc' & out
        & Hj & Ht & Hd & Hv & Hb & H1 & H2 & H3 & H4 & -> & ->).
  exists d, t, items, tb, fs. repeat split; try assumption.
  - unfold template_fields. rewrite H1. assumption.
  - intros req' resp' tr' d' Hj' Ht' H' Hs'.
    destruct (success_inv _ _ _ _ H' Hs')
      as (d2 & t2 & items2 & tb2 & doc2 & fs2 & doc2' & out2
          & Hj2 & Ht2 & Hd2 & Hv2 & Hb2 & G1 & G2 & G3 & G4 & -> & ->).
    rewrite Hj' in Hj2. injection Hj2 as <-.
    rewrite Ht' in Ht2. injection Ht2 as <-.
    rewrite Hb in Hb2. injection Hb2 as <-.
    rewrite H1 in G1. injection G1 as <-.
    rewrite H2 in G2. injection G2 as <-.
    reflexivity.
Qed.

Lemma fields_from_template_witness :
  handle sample_lib (post (JObj sample_body)) =
    (Ok sample_response, sample_trace) /\
  status sample_response = 200 /\
  exists d t items tb fs,
    get_json (post (JObj sample_body)) = Ok (JObj d) /\
    dict_get "template" d = Some t /\
    dict_get "data" d = Some (JObj items) /\
    base64.b64decode t = Ok tb /\
    template_fields sample_lib tb = Ok fs /\
    response_field "fields" sample_response = Some (JArr (map JStr fs)) /\
    sample_trace = [MailMerge_called tb; get_merge_fields_called;
                    merge_called items; write_called] /\
    forall req' resp' tr' d',
      get_json req' = Ok (JObj d') -> dict_get "template" d' = Some t ->
      handle sample_lib req' = (Ok resp', tr') -> status resp' = 200 ->
      response_field "fields" resp' = response_field "fields" sample_response.
Proof.
  split; [reflexivity |]. split; [reflexivity |].
  apply (fields_from_template sample_lib (post (JObj sample_body))
           sample_response sample_trace); reflexivity.
Defined.




(** Claim C3 at a body that is no mapping.  The JSON number [5] has no
    key [template]; line 46 evaluates ['template' not in 5], which raises
    [TypeError], and the generic [except] clause answers 500.  The merge
    library is not called.  For mapping bodies the claim holds
    ([mapping_validation_is_client_error]). *)
Theorem number_body_is_server_error lib :
  handle lib (post (JInt 5)) =
  (Ok {| body := jsonify [("success", JBool false);
                          ("error",
                           JStr "argument of type 'int' is not iterable")];
         status := 500 |},
   [logger_error
      "Error processing document: argument of type 'int' is not iterable"]).
Proof. reflexivity. Qed.

(** Claim C4, as stated, fails: when the body has no [template], line 46
    answers before the values of [data] are looked at, and the message
    names no key. *)
Lemma non_string_value_without_template :
  handle sample_lib (post (JObj [("data", JObj [("amount", JInt 42)])])) =
  (Ok {| body := JObj [("success", JBool false);
                       ("error",
                        JStr "Missing required parameters: template and data")];
         status := 400 |}, []) /\
  substring_of "amount" "Missing required parameters: template and data"
  = false.
Proof. split; reflexivity. Qed.

(** Claim C4, amended.  For a request whose body is a mapping with a
    mapping [data] that holds a value that is not a string, the response
    is 400 with [success] false and no call into the merge library is
    made; when the body also holds [template], the message names the
    first key of [data] whose value is not a string. *)
Theorem non_string_value_names_key lib req d items :
  get_json req = Ok (JObj d) ->
  dict_get "data" d = Some (JObj items) ->
  (exists k v, In (k, v) items /\ is_str v = false) ->
  exists msg,
    handle lib req =
    (Ok {| body := jsonify [("success", JBool false); ("error", JStr msg)];
           status := 400 |}, []) /\
    forall t,
      dict_get "template" d = Some t ->
      exists key v,
        first_non_str items = Some key /\
        In (key, v) items /\ is_str v = false /\
        msg = ("Data value for key '" ++ key ++ "' must be a string")%string /\
        substring_of key msg = true.
Proof.
  intros Hj Hd Hex.
  destruct (first_non_str_some items Hex) as (key & v & Hk & Hin & Hv).
  rewrite handle_outcome. unfold outcome. rewrite Hj.
  destruct (dict_get "template" d) as [t |] eqn:Ht.
  - rewrite (missing_parameters_obj d t _ Ht Hd).
    rewrite (py_getitem_obj _ _ _ Ht), (py_getitem_obj _ _ _ Hd), Hk.
    eexists. split; [reflexivity |].
    intros t' _. exists key, v. repeat split; try assumption.
    apply substring_of_app.
  - unfold missing_parameters, py_not_in, py_in, dict_mem. rewrite Ht.
    assert (truthy (JObj d) = true) as ->
      by (destruct d; [discriminate | reflexivity]).
    eexists. split; [reflexivity |]. intros t' [=].
Qed.

Lemma non_string_value_names_key_witness :
  let items := [("client_name", JStr "Acme"); ("amount", JInt 42)] in
  let d := [("template", JStr sample_template); ("data", JObj items)] in
  get_json (post (JObj d)) = Ok (JObj d) /\
  dict_get "data" d = Some (JObj items) /\
  (exists k v, In (k, v) items /\ is_str v = false) /\
  exists msg,
    handle sample_lib (post (JObj d)) =
    (Ok {| body := jsonify [("success", JBool false); ("error", JStr msg)];
           status := 400 |}, []) /\
    forall t,
      dict_get "template" d = Some t ->
      exists key v,
        first_non_str items = Some key /\
        In (key, v) items /\ is_str v = false /\
        msg = ("Data value for key '" ++ key ++ "' must be a string")%string /\
        substring_of key msg = true.
Proof.
  cbv zeta.
  assert (exists k v,
            In (k, v) [("client_name", JStr "Acme"); ("amount", JInt 42)] /\
            is_str v = false) as Hex.
  { exists "amount", (JInt 42).
    split; [right; left; reflexivity | reflexivity]. }
  repeat (split; [first [reflexivity | assumption] |]).
  apply (non_string_value_names_key sample_lib
           (post (JObj [("template", JStr sample_template);
                        ("data", JObj [("client_name", JStr "Acme");
                                       ("amount", JInt 42)])]))
           [("template", JStr sample_template);
            ("data", JObj [("client_name", JStr "Acme"); ("amount", JInt 42)])]
           [("client_name", JStr "Acme"); ("amount", JInt 42)]);
    first [reflexivity | assumption].
Defined.

(** Claim C5, as stated, fails on the message: a [template] that does not
    decode is reported as such only if the checks on [data] pass first. *)
Lemma invalid_base64_after_bad_data :
  base64.b64decode (JStr "a") =
    Raise (binascii.Error
      "Invalid base64-encoded string: number of data characters (1) cannot be 1 more than a multiple of 4") /\
  handle sample_lib
    (post (JObj [("template", JStr "a"); ("data", JInt 5)])) =
  (Ok {| body := JObj [("success", JBool false);
                       ("error", JStr "Data must be an object")];
         status := 400 |}, []).
Proof. split; reflexivity. Qed.

(** Claim C5, amended.  For a request whose body is a mapping with a
    [template] that fails base64 decoding, the response is 400 with
    [success] false and no call into the merge library is made; the
    message is the one about invalid base64 when the body passes the
    checks on [data] (present, a mapping, all values strings). *)
Theorem invalid_base64_is_client_error lib req d t e :
  get_json req = Ok (JObj d) ->
  dict_get "template" d = Some t ->
  base64.b64decode t = Raise e ->
  exists msg,
    handle lib req =
    (Ok {| body := jsonify [("success", JBool false); ("error", JStr msg)];
           status := 400 |}, []) /\
    forall items,
      dict_get "data" d = Some (JObj items) -> first_non_str items = None ->
      msg = "Invalid base64 encoded template".
Proof.
  intros Hj Ht Hb. rewrite handle_outcome. unfold outcome. rewrite Hj.
  unfold missing_parameters, py_not_in, py_in, dict_mem. rewrite Ht.
  assert (truthy (JObj d) = true) as -> by (destruct d; [discriminate | reflexivity]).
  cbn [negb].
  destruct (dict_get "data" d) as [data |] eqn:Ed; cbn [negb].
  - rewrite (py_getitem_obj _ _ _ Ht), (py_getitem_obj _ _ _ Ed).
    destruct data as [| b | n | f | s | l | items];
      try (eexists; split; [reflexivity | intros ? [=]]).
    destruct (first_non_str items) as [key |] eqn:Ek.
    + eexists; split; [reflexivity |]. intros ? [= <-]. congruence.
    + rewrite Hb. eexists; split; [reflexivity | reflexivity].
  - eexists; split; [reflexivity | intros ? [=]].
Qed.

Lemma invalid_base64_is_client_error_witness :
  let d := [("template", JStr "a"); ("data", JObj [])] in
  let e := binascii.Error
    "Invalid base64-encoded string: number of data characters (1) cannot be 1 more than a multiple of 4" in
  get_json (post (JObj d)) = Ok (JObj d) /\
  dict_get "template" d = Some (JStr "a") /\
  base64.b64decode (JStr "a") = Raise e /\
  exists msg,
    handle sample_lib (post (JObj d)) =
    (Ok {| body := jsonify [("success", JBool false); ("error", JStr msg)];
           status := 400 |}, []) /\
    forall items,
      dict_get "data" d = Some (JObj items) -> first_non_str items = None ->
      msg = "Invalid base64 encoded template".
Proof.
  cbv zeta. repeat (split; [reflexivity |]).
  apply (invalid_base64_is_client_error sample_lib
           (post (JObj [("template", JStr "a"); ("data", JObj [])]))
           [("template", JStr "a"); ("data", JObj [])] (JStr "a")
           (binascii.Error
              "Invalid base64-encoded string: number of data characters (1) cannot be 1 more than a multiple of 4"));
    reflexivity.
Defined.

(** Claim C6.  For a request that passes the checks and whose template
    decodes, if a call into the merge library raises [e], the handler
    returns a 500 response with [success] false and [str(e)] as [error],
    after logging it: the exception does not leave the handler. *)
Theorem merge_failure_is_server_error lib req d t items tb e :
  get_json req = Ok (JObj d) ->
  dict_get "template" d = Some t ->
  dict_get "data" d = Some (JObj items) ->
  first_non_str items = None ->
  base64.b64decode t = Ok tb ->
  merge_raises lib tb items e ->
  exists calls,
    handle lib req =
    (Ok {| body := jsonify [("success", JBool false);
                            ("error", JStr (str_exn e))];
           status := 500 |},
     calls ++ [log_line e]).
Proof.
  intros Hj Ht Hd Hv Hb Hr.
  rewrite (handle_validated lib req d t items Hj Ht Hd Hv), Hb.
  apply merge_outcome_raises. assumption.
Qed.

Lemma merge_failure_is_server_error_witness :
  let e := BadZipFile "File is not a zip file" in
  let items := [("name", JStr "x")] in
  get_json (post (JObj hello_body)) = Ok (JObj hello_body) /\
  dict_get "template" hello_body = Some (JStr "aGVsbG8=") /\
  dict_get "data" hello_body = Some (JObj items) /\
  first_non_str items = None /\
  base64.b64decode (JStr "aGVsbG8=") = Ok (bytes_of_string "hello") /\
  merge_raises (fixed_fields []) (bytes_of_string "hello") items e /\
  exists calls,
    handle (fixed_fields []) (post (JObj hello_body)) =
    (Ok {| body := jsonify [("success", JBool false);
                            ("error", JStr (str_exn e))];
           status := 500 |},
     calls ++ [log_line e]).
Proof.
  cbv zeta.
  assert (merge_raises (fixed_fields []) (bytes_of_string "hello")
            [("name", JStr "x")] (BadZipFile "File is not a zip file")) as Hr
    by (apply raises_opening; reflexivity).
  repeat (split; [first [reflexivity | assumption] |]).
  apply (merge_failure_is_server_error (fixed_fields [])
           (post (JObj hello_body)) hello_body (JStr "aGVsbG8=")
           [("name", JStr "x")] (bytes_of_string "hello"));
    first [reflexivity | assumption].
Defined.

(** Claim C7.  In a 200 response, [document] decodes from base64, and
    encoding the decoded bytes again gives [document] back. *)
Theorem document_reencodes lib req resp tr :
  handle lib req = (Ok resp, tr) -> status resp = 200 ->
  exists document_b64 document_bytes,
    response_field "document" resp = Some (JStr document_b64) /\
    base64.b64decode (JStr document_b64) = Ok document_bytes /\
    decode_utf8 (base64.b64encode document_bytes) = document_b64.
Proof.
  intros H Hs.
  destruct (success_inv _ _ _ _ H Hs)
    as (d & t & items & tb & doc & fs & doc' & out
        & _ & _ & _ & _ & _ & _ & _ & _ & _ & -> & _).
  exists (decode_utf8 (base64.b64encode out)), out.
  split; [reflexivity |]. split; [apply b64decode_b64encode | reflexivity].
Qed.

Lemma document_reencodes_witness :
  handle sample_lib (post (JObj sample_body)) =
    (Ok sample_response, sample_trace) /\
  status sample_response = 200 /\
  exists document_b64 document_bytes,
    response_field "document" sample_response = Some (JStr document_b64) /\
    base64.b64decode (JStr document_b64) = Ok document_bytes /\
    decode_utf8 (base64.b64encode document_bytes) = document_b64.
Proof.
  split; [reflexivity |]. split; [reflexivity |].
  apply (document_reencodes sample_lib (post (JObj sample_body))
           sample_response sample_trace); reflexivity.
Defined.

(** Claim C8.  When [request.get_json()] raises, the generic [except]
    clause catches the exception: the response is 500 with [success]
    false and [str(e)] as [error], not a 400. *)
Theorem unparseable_body_is_server_error lib req e :
  get_json req = Raise e ->
  handle lib req =
  (Ok {| body := jsonify [("success", JBool false);
                          ("error", JStr (str_exn e))];
         status := 500 |},
   [log_line e]).
Proof. intros H. rewrite handle_outcome. unfold outcome. rewrite H. reflexivity. Qed.

Lemma unparseable_body_is_server_error_witness :
  let e := PyException "BadRequest"
    "400 Bad Request: Failed to decode JSON object" in
  get_json {| get_json := Raise e |} = Raise e /\
  handle sample_lib {| get_json := Raise e |} =
  (Ok {| body := jsonify [("success", JBool false);
                          ("error", JStr (str_exn e))];
         status := 500 |},
   [log_line e]).
Proof.
  cbv zeta. split; [reflexivity |].
  apply (unparseable_body_is_server_error sample_lib
           {| get_json :=
                Raise (PyException "BadRequest"
                         "400 Bad Request: Failed to decode JSON object") |}
           (PyException "BadRequest"
              "400 Bad Request: Failed to decode JSON object")).
  reflexivity.
Defined.

(** Claim C9.  A [template] that is not a string passes the checks of
    lines 46 to 68; [b64decode] raises on it, and the response is 400 with
    the message about invalid base64. *)
Theorem non_string_template_is_invalid_base64 lib req d v items :
  get_json req = Ok (JObj d) ->
  dict_get "template" d = Some v ->
  is_str v = false ->
  dict_get "data" d = Some (JObj items) ->
  first_non_str items = None ->
  (exists e, base64.b64decode v = Raise e) /\
  handle lib req =
  (Ok {| body := jsonify [("success", JBool false);
                          ("error", JStr "Invalid base64 encoded template")];
         status := 400 |},
   []).
Proof.
  intros Hj Ht Hs Hd Hv.
  destruct (b64decode_non_str v Hs) as [e He].
  split; [eauto |].
  rewrite (handle_validated lib req d v items Hj Ht Hd Hv), He. reflexivity.
Qed.

Lemma non_string_template_is_invalid_base64_witness :
  let d := [("template", JInt 5); ("data", JObj sample_data)] in
  get_json (post (JObj d)) = Ok (JObj d) /\
  dict_get "template" d = Some (JInt 5) /\
  is_str (JInt 5) = false /\
  dict_get "data" d = Some (JObj sample_data) /\
  first_non_str sample_data = None /\
  (exists e, base64.b64decode (JInt 5) = Raise e) /\
  handle sample_lib (post (JObj d)) =
  (Ok {| body := jsonify [("success", JBool false);
                          ("error", JStr "Invalid base64 encoded template")];
         status := 400 |},
   []).
Proof.
  cbv zeta. repeat (split; [reflexivity |]).
  apply (non_string_template_is_invalid_base64 sample_lib
           (post (JObj [("template", JInt 5); ("data", JObj sample_data)]))
           [("template", JInt 5); ("data", JObj sample_data)] (JInt 5)
           sample_data); reflexivity.
Defined.

(** Claim C10.  There is a [template] with characters outside the
    base64 alphabet (a space and an exclamation mark) that [b64decode]
    accepts: whatever the strings in [data], the handler goes on to call
    the merge library on the decoded bytes, and its response is 200 or
    500, not the 400 about invalid base64. *)
Theorem lenient_base64_template :
  exists template template_bytes,
    existsb (fun c => (64 <=? binascii.a2b_digit (byte_of_ascii c))
                      && negb (char_val c =? binascii.BASE64_PAD))
            (list_ascii_of_string template) = true /\
    base64.b64decode (JStr template) = Ok template_bytes /\
    forall lib data,
      exists resp calls,
        handle lib (post (JObj [("template", JStr template);
                                ("data", JObj (string_dict data))])) =
        (Ok resp, MailMerge_called template_bytes :: calls) /\
        (status resp = 200 \/ status resp = 500).
Proof.
  exists "YW Jj!", (bytes_of_string "abc").
  split; [reflexivity |]. split; [reflexivity |].
  intros lib data.
  rewrite (handle_validated lib
             (post (JObj [("template", JStr "YW Jj!");
                          ("data", JObj (string_dict data))]))
             [("template", JStr "YW Jj!"); ("data", JObj (string_dict data))]
             (JStr "YW Jj!") (string_dict data)
             eq_refl eq_refl eq_refl (first_non_str_string_dict data)).
  change (base64.b64decode (JStr "YW Jj!")) with (Ok (bytes_of_string "abc")).
  cbv iota. unfold merge_outcome.
  repeat match goal with
         | |- context [match ?x with _ => _ end] => destruct x
         end;
    eexists _, _; (split; [reflexivity |]); cbn; auto.
Qed.

(** * Further properties *)

(** ** The encoder *)

(** At a quad boundary the bytes shifted in earlier no longer matter:
    the encoder works three bytes at a time. *)

Lemma b2a_loop_leftchar n : forall bs lc,
  (List.length bs <= n)%nat -> 0 <= lc ->
  b2a_base64_loop bs lc 0 [] = b2a_base64_loop bs 0 0 [].
Proof.
  induction n as [| n IH]; intros bs lc Hlen Hlc.
  - destruct bs; [reflexivity | cbn in Hlen; lia].
  - destruct bs as [| a [| b [| c rest]]].
    + reflexivity.
    + rewrite !b2a_last1 by lia. reflexivity.
    + rewrite !b2a_last2 by lia. reflexivity.
    + destruct (b2a_block a b c rest lc Hlc) as (l1 & H1 & ->).
      destruct (b2a_block a b c rest 0 (Z.le_refl 0)) as (l2 & H2 & ->).
      rewrite (IH rest l1), (IH rest l2) by (cbn in Hlen; lia || assumption).
      reflexivity.
Qed.

Lemma b2a_base64_cons3 a b c rest :
  b2a_base64 (a :: b :: c :: rest) =
  quad (byte_val a) (byte_val b) (byte_val c) ++ b2a_base64 rest.
Proof.
  unfold b2a_base64.
  destruct (b2a_block a b c rest 0 (Z.le_refl 0)) as (l & Hl & ->).
  rewrite (b2a_loop_leftchar (List.length rest)) by (lia || assumption).
  reflexivity.
Qed.

Lemma b2a_base64_1 a :
  b2a_base64 [a] =
  [b2a_digit (byte_val a / 4); b2a_digit (byte_val a mod 4 * 16 + 0 / 16);
   pad_byte; pad_byte].
Proof. apply b2a_last1. lia. Qed.

Lemma b2a_base64_2 a b :
  b2a_base64 [a; b] =
  [b2a_digit (byte_val a / 4);
   b2a_digit (byte_val a mod 4 * 16 + byte_val b / 16);
   b2a_digit (byte_val b mod 16 * 4 + 0 / 64); pad_byte].
Proof. apply b2a_last2. lia. Qed.

Lemma bytes_ind3 (P : list byte -> Prop) :
  P [] -> (forall a, P [a]) -> (forall a b, P [a; b]) ->
  (forall a b c rest, P rest -> P (a :: b :: c :: rest)) ->
  forall bs : list byte, P bs.
Proof.
  intros H0 H1 H2 H3.
  assert (forall n bs, (List.length bs <= n)%nat -> P bs) as H.
  { induction n as [| n IH]; intros bs Hlen.
    - destruct bs; [exact H0 | cbn in Hlen; lia].
    - destruct bs as [| a [| b [| c rest]]]; auto.
      apply H3, IH. cbn in Hlen. lia. }
  intros bs. apply (H (List.length bs)). apply Nat.le_refl.
Qed.

Lemma is_digit_b2a_digit s : 0 <= s < 64 -> is_digit (b2a_digit s) = true.
Proof.
  intros Hs. destruct (b2a_digit_facts s Hs) as (Hp & Hd & _).
  unfold is_digit. rewrite Hp, Hd.
  destruct (Z.ltb_spec s 64); [reflexivity | lia].
Qed.

Lemma is_digit_inverse_check b :
  implb (is_digit b)
        (Byte.eqb (b2a_digit (a2b_digit b)) b
         && (0 <=? a2b_digit b) && (a2b_digit b <? 64)) = true.
Proof. destruct b; vm_compute; reflexivity. Qed.

Lemma is_digit_inverse b :
  is_digit b = true ->
  b2a_digit (a2b_digit b) = b /\ 0 <= a2b_digit b < 64.
Proof.
  intros H. pose proof (is_digit_inverse_check b) as C.
  rewrite H in C. cbn [implb] in C.
  apply andb_prop in C as [C C3]. apply andb_prop in C as [C1 C2].
  apply Byte.byte_dec_bl in C1. apply Z.leb_le in C2. apply Z.ltb_lt in C3.
  auto.
Qed.

Lemma quad_digits a b c :
  forallb is_digit (quad (byte_val a) (byte_val b) (byte_val c)) = true.
Proof.
  destruct (sextet_ranges _ _ _ (byte_val_range a) (byte_val_range b)
              (byte_val_range c)) as (R0 & R1 & R2 & R3).
  unfold quad. cbn [forallb].
  rewrite !is_digit_b2a_digit by assumption. reflexivity.
Qed.

(** X1.  [b64decode] undoes [b64encode]: whatever the bytes, decoding
    the text the handler would send gives them back. *)
Theorem b64_round_trip bs :
  base64.b64decode (JStr (decode_utf8 (base64.b64encode bs))) = Ok bs.
Proof. apply b64decode_b64encode. Qed.

(** X2.  The encoded text has four characters for every three bytes,
    the last group filled up. *)
Theorem b64encode_length bs :
  Z.of_nat (List.length (base64.b64encode bs)) =
  4 * ((Z.of_nat (List.length bs) + 2) / 3).
Proof.
  unfold base64.b64encode.
  induction bs as [| a | a b | a b c rest IH] using bytes_ind3.
  - reflexivity.
  - rewrite b2a_base64_1. reflexivity.
  - rewrite b2a_base64_2. reflexivity.
  - rewrite b2a_base64_cons3. unfold quad.
    cbn [List.length app]. rewrite !Nat2Z.inj_succ, IH.
    Z.div_mod_to_equations. lia.
Qed.

(** X3.  The encoded text is made of characters of the alphabet followed
    by no, one or two pad characters, as the length of the input leaves
    no, two or one byte over. *)
Theorem b64encode_shape bs :
  exists digits,
    forallb is_digit digits = true /\
    base64.b64encode bs =
    digits ++
    repeat pad_byte (Z.to_nat ((3 - Z.of_nat (List.length bs) mod 3) mod 3)).
Proof.
  unfold base64.b64encode.
  induction bs as [| a | a b | a b c rest IH] using bytes_ind3.
  - exists []. split; reflexivity.
  - rewrite b2a_base64_1.
    destruct (sextet_ranges (byte_val a) 0 0 (byte_val_range a))
      as (R0 & R1 & _); [lia | lia |].
    eexists [_; _]. split; [| reflexivity].
    cbn [forallb]. rewrite !is_digit_b2a_digit by assumption. reflexivity.
  - rewrite b2a_base64_2.
    destruct (sextet_ranges (byte_val a) (byte_val b) 0 (byte_val_range a)
                (byte_val_range b)) as (R0 & R1 & R2 & _); [lia |].
    eexists [_; _; _]. split; [| reflexivity].
    cbn [forallb]. rewrite !is_digit_b2a_digit by assumption. reflexivity.
  - destruct IH as (ds & Hds & IH). rewrite b2a_base64_cons3, IH.
    exists (quad (byte_val a) (byte_val b) (byte_val c) ++ ds).
    split.
    + rewrite forallb_app, quad_digits, Hds. reflexivity.
    + rewrite <- app_assoc. do 2 f_equal. f_equal.
      cbn [List.length]. rewrite !Nat2Z.inj_succ.
      Z.div_mod_to_equations. lia.
Qed.

(** X4.  After a whole number of three-byte groups, encoding a
    concatenation concatenates the encodings. *)
Theorem b64encode_app bs cs :
  Z.of_nat (List.length bs) mod 3 = 0 ->
  base64.b64encode (bs ++ cs) = base64.b64encode bs ++ base64.b64encode cs.
Proof.
  unfold base64.b64encode.
  induction bs as [| a | a b | a b c rest IH] using bytes_ind3; intros H.
  - reflexivity.
  - discriminate.
  - discriminate.
  - cbn [app]. rewrite !b2a_base64_cons3, IH, app_assoc; [reflexivity |].
    cbn [List.length] in H. rewrite !Nat2Z.inj_succ in H.
    Z.div_mod_to_equations. lia.
Qed.

Lemma b64encode_app_witness :
  Z.of_nat (List.length (bytes_of_string "foo")) mod 3 = 0 /\
  base64.b64encode (bytes_of_string "foo" ++ bytes_of_string "bar") =
  base64.b64encode (bytes_of_string "foo")
  ++ base64.b64encode (bytes_of_string "bar").
Proof.
  split; [reflexivity |].
  apply (b64encode_app (bytes_of_string "foo") (bytes_of_string "bar")).
  reflexivity.
Defined.

(** ** The decoder *)
Lemma a2b_loop_skip c ys : 
  is_digit c = false -> is_pad c = false ->
  forall xs quad_pos leftchar pads bin_data,
  a2b_base64_loop (xs ++ c :: ys) quad_pos leftchar pads bin_data =
  a2b_base64_loop (xs ++ ys) quad_pos leftchar pads bin_data.
Proof.
  intros Hd Hp. unfold is_digit, is_pad in *. rewrite Hp in Hd.
  rewrite andb_true_r in Hd. apply Z.ltb_ge in Hd.
  induction xs as [| x xs IH]; intros q lc pads out.
  - cbn [app a2b_base64_loop]. rewrite Hp.
    destruct (Z.leb_spec 64 (a2b_digit c)); [reflexivity | lia].
  - cbn [app a2b_base64_loop].
    repeat match goal with
           | |- context [if ?b then _ else _] => destruct b
           end; try reflexivity; apply IH.
Qed.

Lemma a2b_pad_pad_rest rest leftchar bin_data :
  a2b_base64_loop (pad_byte :: pad_byte :: rest) 2 leftchar 0 bin_data
  = Ok bin_data.
Proof. reflexivity. Qed.

Lemma a2b_pad_rest rest leftchar bin_data :
  a2b_base64_loop (pad_byte :: rest) 3 leftchar 0 bin_data = Ok bin_data.
Proof. reflexivity. Qed.

Lemma a2b_quad a b c rest out :
  a2b_base64_loop (quad (byte_val a) (byte_val b) (byte_val c) ++ rest)
    0 0 0 out =
  a2b_base64_loop rest 0 0 0 (out ++ [a; b; c]).
Proof.
  pose proof (byte_val_range a) as Ha. pose proof (byte_val_range b) as Hb.
  pose proof (byte_val_range c) as Hc.
  destruct (sextet_ranges _ _ _ Ha Hb Hc) as (R0 & R1 & R2 & R3).
  unfold quad. cbn [app].
  rewrite a2b_step_0, a2b_step_1, a2b_step_2, a2b_step_3 by assumption.
  rewrite octet0, octet1, octet2 by lia. rewrite !byte_of_Z_val.
  rewrite <- !app_assoc. reflexivity.
Qed.

Lemma a2b_after_padding bs : forall junk out,
  Z.of_nat (List.length bs) mod 3 <> 0 ->
  a2b_base64_loop (b2a_base64 bs ++ junk) 0 0 0 out = Ok (out ++ bs).
Proof.
  induction bs as [| a | a b | a b c rest IH] using bytes_ind3;
    intros junk out H.
  - contradiction H. reflexivity.
  - rewrite b2a_base64_1. cbn [app].
    pose proof (byte_val_range a) as Ha.
    destruct (sextet_ranges (byte_val a) 0 0 Ha) as (R0 & R1 & _);
      [lia | lia |].
    rewrite a2b_step_0, a2b_step_1 by assumption.
    rewrite octet0 by lia. rewrite byte_of_Z_val. apply a2b_pad_pad_rest.
  - rewrite b2a_base64_2. cbn [app].
    pose proof (byte_val_range a) as Ha. pose proof (byte_val_range b) as Hb.
    destruct (sextet_ranges (byte_val a) (byte_val b) 0 Ha Hb)
      as (R0 & R1 & R2 & _); [lia |].
    rewrite a2b_step_0, a2b_step_1, a2b_step_2 by assumption.
    rewrite octet0, octet1 by lia. rewrite !byte_of_Z_val.
    rewrite a2b_pad_rest. rewrite <- app_assoc. reflexivity.
  - rewrite b2a_base64_cons3, <- app_assoc, a2b_quad, IH.
    + rewrite <- app_assoc. reflexivity.
    + cbn [List.length] in H. rewrite !Nat2Z.inj_succ in H.
      Z.div_mod_to_equations. lia.
Qed.

Lemma list_ascii_of_string_app s1 s2 :
  list_ascii_of_string (s1 ++ s2)%string =
  list_ascii_of_string s1 ++ list_ascii_of_string s2.
Proof. induction s1 as [| a s1 IH]; cbn; [reflexivity | rewrite IH; reflexivity]. Qed.

Lemma string_length_list s :
  List.length (list_ascii_of_string s) = String.length s.
Proof. induction s as [| a s IH]; cbn; [reflexivity | rewrite IH; reflexivity]. Qed.

Lemma encode_ascii_spec s :
  base64.encode_ascii s =
  if ascii_only s then Some (bytes_of_string s) else None.
Proof. reflexivity. Qed.

Lemma ascii_only_app s1 s2 :
  ascii_only (s1 ++ s2)%string = ascii_only s1 && ascii_only s2.
Proof. unfold ascii_only. rewrite list_ascii_of_string_app. apply forallb_app. Qed.

Lemma bytes_of_string_app s1 s2 :
  bytes_of_string (s1 ++ s2)%string = bytes_of_string s1 ++ bytes_of_string s2.
Proof. unfold bytes_of_string. rewrite list_ascii_of_string_app. apply map_app. Qed.

Lemma b64decode_str s :
  base64.b64decode (JStr s) =
  if ascii_only s then a2b_base64 (bytes_of_string s)
  else Raise (ValueError "string argument should contain only ASCII characters").
Proof.
  unfold base64.b64decode, base64._bytes_from_decode_data.
  rewrite encode_ascii_spec. destruct (ascii_only s); reflexivity.
Qed.

Lemma bytes_of_string_decode_utf8 b : bytes_of_string (decode_utf8 b) = b.
Proof.
  unfold bytes_of_string, decode_utf8.
  rewrite list_ascii_of_string_of_list_ascii, map_map.
  rewrite (map_ext _ (fun x => x)) by (intros x; apply byte_of_ascii_of_byte).
  apply map_id.
Qed.

Lemma ascii_only_decode_utf8 b :
  forallb is_ascii b = true -> ascii_only (decode_utf8 b) = true.
Proof.
  intros H. pose proof (encode_ascii_decode_utf8 b H) as E.
  rewrite encode_ascii_spec in E.
  destruct (ascii_only (decode_utf8 b)); [reflexivity | discriminate].
Qed.

Lemma b64decode_rejects_non_ascii s :
  ascii_only s = false ->
  base64.b64decode (JStr s) =
  Raise (ValueError "string argument should contain only ASCII characters").
Proof. intros H. rewrite b64decode_str, H. reflexivity. Qed.

Lemma is_digit_char_ascii c : is_digit_char c = true -> char_val c < 128.
Proof.
  unfold is_digit_char. intros H.
  destruct (is_digit_inverse _ H) as [E _].
  pose proof (b2a_digit_ascii (a2b_digit (byte_of_ascii c))) as A.
  rewrite E in A. unfold is_ascii in A. apply Z.ltb_lt in A.
  rewrite <- (ascii_of_byte_of_ascii c), char_val_byte. assumption.
Qed.

Lemma digits_ind4 (P : list byte -> Prop) :
  P [] -> (forall a, P [a]) -> (forall a b, P [a; b]) ->
  (forall a b c, P [a; b; c]) ->
  (forall a b c d rest, P rest -> P (a :: b :: c :: d :: rest)) ->
  forall ds : list byte, P ds.
Proof.
  intros H0 H1 H2 H3 H4.
  assert (forall n ds, (List.length ds <= n)%nat -> P ds) as H.
  { induction n as [| n IH]; intros ds Hlen.
    - destruct ds; [exact H0 | cbn in Hlen; lia].
    - destruct ds as [| a [| b [| c [| d rest]]]]; auto.
      apply H4, IH. cbn in Hlen. lia. }
  intros ds. apply (H (List.length ds)). apply Nat.le_refl.
Qed.

Lemma a2b_digits_loop ds : forall out,
  forallb is_digit ds = true ->
  match a2b_base64_loop ds 0 0 0 out with
  | Ok out' =>
      Z.of_nat (List.length ds) mod 4 = 0 /\
      Z.of_nat (List.length out') =
      Z.of_nat (List.length out) + 3 * (Z.of_nat (List.length ds) / 4)
  | Raise _ => Z.of_nat (List.length ds) mod 4 <> 0
  end.
Proof.
  induction ds as [| a | a b | a b c | a b c d rest IH] using digits_ind4;
    intros out H; cbn [forallb] in H;
    repeat match type of H with
           | (_ && _) = true => apply andb_prop in H as [?D H]
           end;
    repeat match goal with
           | D : is_digit ?x = true |- _ =>
               let E := fresh "E" in let R := fresh "R" in
               destruct (is_digit_inverse x D) as [E R];
               rewrite <- E; clear D E
           end.
  - cbn. split; [reflexivity | lia].
  - rewrite a2b_step_0 by assumption. cbn. discriminate.
  - rewrite a2b_step_0, a2b_step_1 by assumption. cbn. discriminate.
  - rewrite a2b_step_0, a2b_step_1, a2b_step_2 by assumption. cbn. discriminate.
  - rewrite a2b_step_0, a2b_step_1, a2b_step_2, a2b_step_3 by assumption.
    specialize (IH (((out ++ [byte_of_Z
                  (Z.lor (Z.shiftl (a2b_digit a) 2)
                     (Z.shiftr (a2b_digit b) 4))]) ++
              [byte_of_Z
                 (Z.lor (Z.shiftl (Z.land (a2b_digit b) 15) 4)
                    (Z.shiftr (a2b_digit c) 2))]) ++
             [byte_of_Z
                (Z.lor (Z.shiftl (Z.land (a2b_digit c) 3) 6) (a2b_digit d))]) H).
    destruct (a2b_base64_loop rest 0 0 0 _) as [out' | e].
    + destruct IH as [IH1 IH2]. rewrite !length_app in IH2.
      cbn [List.length] in *. rewrite !Nat2Z.inj_succ.
      rewrite !Nat2Z.inj_add in IH2. change (Z.of_nat 1) with 1 in IH2.
      pose proof (Nat2Z.is_nonneg (List.length rest)).
      generalize dependent (Z.of_nat (List.length rest)). intros n ? ? ?.
      split; Z.div_mod_to_equations; lia.
    + cbn [List.length]. rewrite !Nat2Z.inj_succ.
      pose proof (Nat2Z.is_nonneg (List.length rest)).
      generalize dependent (Z.of_nat (List.length rest)). intros n ? ?.
      Z.div_mod_to_equations. lia.
Qed.

(** X5.  [b64decode] skips an ASCII character that is neither of the
    alphabet nor the pad, wherever it stands: the text with it decodes
    (or fails) as the text without it. *)
Theorem b64decode_skips_foreign_characters s1 c s2 :
  char_val c < 128 -> is_digit_char c = false -> is_pad_char c = false ->
  base64.b64decode (JStr (s1 ++ String c s2)) =
  base64.b64decode (JStr (s1 ++ s2)).
Proof.
  intros Hc Hd Hp. rewrite !b64decode_str, !ascii_only_app.
  assert (ascii_only (String c s2) = ascii_only s2) as ->.
  { unfold ascii_only. cbn [list_ascii_of_string forallb].
    destruct (Z.ltb_spec (char_val c) 128); [reflexivity | lia]. }
  destruct (ascii_only s1 && ascii_only s2); [| reflexivity].
  rewrite !bytes_of_string_app. unfold a2b_base64.
  change (bytes_of_string (String c s2))
    with (byte_of_ascii c :: bytes_of_string s2).
  apply a2b_loop_skip; assumption.
Qed.

Lemma b64decode_skips_foreign_characters_witness :
  char_val " " < 128 /\ is_digit_char " " = false /\
  is_pad_char " " = false /\
  base64.b64decode (JStr ("YW" ++ String " " "Jj")) =
  base64.b64decode (JStr ("YW" ++ "Jj")).
Proof.
  repeat (split; [reflexivity |]).
  apply (b64decode_skips_foreign_characters "YW" " " "Jj"); reflexivity.
Defined.

(** X6.  When the encoded text ends in padding, [b64decode] stops there:
    any ASCII text appended to it is ignored. *)
Theorem b64decode_ignores_text_after_padding bs junk :
  Z.of_nat (List.length bs) mod 3 <> 0 -> ascii_only junk = true ->
  base64.b64decode (JStr (decode_utf8 (base64.b64encode bs) ++ junk)) = Ok bs.
Proof.
  intros Hlen Hj. rewrite b64decode_str, ascii_only_app, Hj.
  rewrite ascii_only_decode_utf8 by apply b64encode_is_ascii.
  cbn [andb]. rewrite bytes_of_string_app, bytes_of_string_decode_utf8.
  unfold a2b_base64, base64.b64encode.
  apply (a2b_after_padding bs (bytes_of_string junk) []). assumption.
Qed.

Lemma b64decode_ignores_text_after_padding_witness :
  Z.of_nat (List.length (bytes_of_string "fooba")) mod 3 <> 0 /\
  ascii_only "<junk>" = true /\
  base64.b64decode
    (JStr (decode_utf8 (base64.b64encode (bytes_of_string "fooba"))
           ++ "<junk>")) =
  Ok (bytes_of_string "fooba").
Proof.
  split; [discriminate |]. split; [reflexivity |].
  apply (b64decode_ignores_text_after_padding (bytes_of_string "fooba")
           "<junk>"); [discriminate | reflexivity].
Defined.

(** X7.  A text made of alphabet characters only, without padding,
    decodes if and only if its length is a multiple of four, to three
    bytes for every four characters; otherwise [b64decode] raises. *)
Theorem b64decode_unpadded s :
  forallb is_digit_char (list_ascii_of_string s) = true ->
  match base64.b64decode (JStr s) with
  | Ok out =>
      Z.of_nat (String.length s) mod 4 = 0 /\
      Z.of_nat (List.length out) = 3 * (Z.of_nat (String.length s) / 4)
  | Raise _ => Z.of_nat (String.length s) mod 4 <> 0
  end.
Proof.
  intros H. rewrite b64decode_str.
  assert (ascii_only s = true) as ->.
  { unfold ascii_only. apply forallb_forall. intros c Hc.
    rewrite forallb_forall in H. apply Z.ltb_lt, is_digit_char_ascii, H, Hc. }
  pose proof (a2b_digits_loop (bytes_of_string s) []) as L.
  unfold bytes_of_string in L. rewrite length_map, string_length_list in L.
  apply L. clear L.
  induction (list_ascii_of_string s) as [| c l IH]; [reflexivity |].
  cbn [map forallb] in *. apply andb_prop in H as [Hc H].
  unfold is_digit_char in Hc. rewrite Hc. exact (IH H).
Qed.

Lemma b64decode_unpadded_witness :
  forallb is_digit_char (list_ascii_of_string "Zm9vYmFy") = true /\
  match base64.b64decode (JStr "Zm9vYmFy") with
  | Ok out =>
      Z.of_nat (String.length "Zm9vYmFy") mod 4 = 0 /\
      Z.of_nat (List.length out) =
      3 * (Z.of_nat (String.length "Zm9vYmFy") / 4)
  | Raise _ => Z.of_nat (String.length "Zm9vYmFy") mod 4 <> 0
  end.
Proof.
  split; [reflexivity |].
  apply (b64decode_unpadded "Zm9vYmFy"). reflexivity.
Defined.

(** ** The responses of the handler *)
(** X8.  Every request is answered, with status 200, 400 or 500.  A 200
    response has [success] true, [document] and [fields], and no
    [error]; a 400 or 500 response has [success] false and [error], and
    neither [document] nor [fields]. *)
Theorem response_shape lib req :
  exists resp tr,
    handle lib req = (Ok resp, tr) /\
    ((status resp = 200 /\
      response_field "success" resp = Some (JBool true) /\
      response_field "error" resp = None /\
      exists document_b64 fields,
        response_field "document" resp = Some (JStr document_b64) /\
        response_field "fields" resp = Some (JArr (map JStr fields)))
     \/
     ((status resp = 400 \/ status resp = 500) /\
      response_field "success" resp = Some (JBool false) /\
      response_field "document" resp = None /\
      response_field "fields" resp = None /\
      exists msg, response_field "error" resp = Some (JStr msg))).
Proof.
  destruct (handle_returns lib req) as (resp & tr & H).
  exists resp, tr. split; [assumption |].
  outcome_leaves_with handle_outcome H;
    first
      [ left; repeat split; eexists _, _; split; reflexivity
      | right; split; [left; reflexivity | repeat split; eexists; reflexivity]
      | right; split; [right; reflexivity | repeat split; eexists; reflexivity] ].
Qed.

(** X9.  A 400 response leaves no trace: the merge library is not
    called and nothing is logged.  Its message is one of four. *)
Theorem client_errors_are_silent lib req resp tr :
  handle lib req = (Ok resp, tr) -> status resp = 400 ->
  tr = [] /\
  exists msg,
    response_field "error" resp = Some (JStr msg) /\
    (msg = "Missing required parameters: template and data" \/
     msg = "Data must be an object" \/
     msg = "Invalid base64 encoded template" \/
     exists key,
       msg = ("Data value for key '" ++ key ++ "' must be a string")%string).
Proof.
  intros H Hs. outcome_leaves_with handle_outcome H; try discriminate Hs;
    (split; [reflexivity |]); eexists; (split; [reflexivity |]);
    first [ left; reflexivity
          | right; left; reflexivity
          | right; right; left; reflexivity
          | right; right; right; eexists; reflexivity ].
Qed.

Lemma client_errors_are_silent_witness :
  let req := post (JObj [("template", JStr sample_template);
                         ("data", JObj [("amount", JInt 42)])]) in
  let resp :=
    {| body := jsonify
         [("success", JBool false);
          ("error", JStr "Data value for key 'amount' must be a string")];
       status := 400 |} in
  handle sample_lib req = (Ok resp, []) /\ status resp = 400 /\
  ([] : trace) = [] /\
  exists msg,
    response_field "error" resp = Some (JStr msg) /\
    (msg = "Missing required parameters: template and data" \/
     msg = "Data must be an object" \/
     msg = "Invalid base64 encoded template" \/
     exists key,
       msg = ("Data value for key '" ++ key ++ "' must be a string")%string).
Proof.
  cbv zeta. split; [reflexivity |]. split; [reflexivity |].
  apply (client_errors_are_silent sample_lib
           (post (JObj [("template", JStr sample_template);
                        ("data", JObj [("amount", JInt 42)])])));
    reflexivity.
Defined.

(** X10.  A 500 response is logged, once and last, with the message it
    carries; a 200 or 400 response is not logged. *)
Theorem server_errors_are_logged lib req resp tr :
  handle lib req = (Ok resp, tr) ->
  (status resp = 500 ->
   exists msg calls,
     response_field "error" resp = Some (JStr msg) /\
     tr = calls ++
          [logger_error ("Error processing document: " ++ msg)%string] /\
     forallb is_library_call calls = true) /\
  (status resp <> 500 -> forallb is_library_call tr = true).
Proof.
  intros H. outcome_leaves_with handle_outcome H; split; intros Hs;
    try discriminate Hs; try (contradiction Hs; reflexivity);
    try reflexivity.
  all: eexists _.
  all: first
         [ exists []; repeat split; reflexivity
         | eexists [_]; repeat split; reflexivity
         | eexists [_; _]; repeat split; reflexivity
         | eexists [_; _; _]; repeat split; reflexivity
         | eexists [_; _; _; _]; repeat split; reflexivity ].
Qed.

Lemma server_errors_are_logged_witness :
  let resp :=
    {| body := jsonify [("success", JBool false);
                        ("error", JStr "File is not a zip file")];
       status := 500 |} in
  let tr :=
    [MailMerge_called (bytes_of_string "hello");
     logger_error "Error processing document: File is not a zip file"] in
  handle (fixed_fields []) (post (JObj hello_body)) = (Ok resp, tr) /\
  (status resp = 500 ->
   exists msg calls,
     response_field "error" resp = Some (JStr msg) /\
     tr = calls ++
          [logger_error ("Error processing document: " ++ msg)%string] /\
     forallb is_library_call calls = true) /\
  (status resp <> 500 -> forallb is_library_call tr = true).
Proof.
  cbv zeta. split; [reflexivity |].
  apply (server_errors_are_logged (fixed_fields [])
           (post (JObj hello_body))).
  reflexivity.
Defined.

(** X11.  The merge library is called only for a request that passed
    every check and whose template decoded, on the decoded bytes and the
    request's own [data]; the calls made are a beginning of [MailMerge],
    [get_merge_fields], [merge], [write], each made at most once. *)
Theorem library_call_protocol lib req resp tr :
  handle lib req = (Ok resp, tr) ->
  library_calls tr = [] \/
  exists d t items tb n,
    get_json req = Ok (JObj d) /\
    dict_get "template" d = Some t /\
    dict_get "data" d = Some (JObj items) /\
    first_non_str items = None /\
    base64.b64decode t = Ok tb /\
    (1 <= n <= 4)%nat /\
    library_calls tr = firstn n (call_sequence tb items).
Proof.
  intros H. outcome_leaves_with handle_outcome H; try (left; reflexivity); right.
  all: repeat match goal with
         | E : py_getitem _ _ = Ok _ |- _ =>
             apply py_getitem_inv in E; destruct E as (? & ? & E)
         end; subst.
  all: match goal with E : JObj _ = JObj _ |- _ => injection E as <- end.
  all: eexists _, _, _, _.
  all: first
         [ exists 1%nat; repeat split; try eassumption; try reflexivity; lia
         | exists 2%nat; repeat split; try eassumption; try reflexivity; lia
         | exists 3%nat; repeat split; try eassumption; try reflexivity; lia
         | exists 4%nat; repeat split; try eassumption; try reflexivity; lia ].
Qed.

Lemma library_call_protocol_witness :
  handle sample_lib (post (JObj sample_body)) =
    (Ok sample_response, sample_trace) /\
  (library_calls sample_trace = [] \/
   exists d t items tb n,
     get_json (post (JObj sample_body)) = Ok (JObj d) /\
     dict_get "template" d = Some t /\
     dict_get "data" d = Some (JObj items) /\
     first_non_str items = None /\
     base64.b64decode t = Ok tb /\
     (1 <= n <= 4)%nat /\
     library_calls sample_trace = firstn n (call_sequence tb items)).
Proof.
  split; [reflexivity |].
  apply (library_call_protocol sample_lib (post (JObj sample_body))
           sample_response sample_trace).
  reflexivity.
Defined.

(** ** What the response depends on *)

Lemma missing_parameters_mapping d :
  missing_parameters (JObj d) =
  Ok (negb (dict_mem "template" d && dict_mem "data" d)).
Proof.
  unfold missing_parameters, py_not_in, py_in.
  destruct d as [| kv d]; [reflexivity |]. cbn [truthy negb].
  destruct (dict_mem "template" (kv :: d)); [| reflexivity].
  destruct (dict_mem "data" (kv :: d)); reflexivity.
Qed.

(** Two runs that differ in [write] only make the same calls, and
    neither is answered 400 once the library is reached. *)








(** ** Bodies and the checks of lines 46 to 77 *)
(** X14.  A body that is falsy ([None], [False], [0], [0.0], an empty
    string, list or object) is answered 400 with the message about
    missing parameters; nothing is logged. *)
Theorem falsy_body_is_missing_parameters lib req rd :
  get_json req = Ok rd -> truthy rd = false ->
  (rd = JNull \/ rd = JBool false \/ rd = JInt 0 \/
   (exists sign, rd = JFloat (S754_zero sign)) \/
   rd = JStr "" \/ rd = JArr [] \/ rd = JObj []) /\
  handle lib req =
  (Ok {| body := jsonify
           [("success", JBool false);
            ("error", JStr "Missing required parameters: template and data")];
         status := 400 |}, []).
Proof.
  intros Hj Hf. split.
  - destruct rd as [| b | n | f | s | l | d]; cbn in Hf.
    + auto.
    + subst. auto.
    + apply negb_false_iff, Z.eqb_eq in Hf. subst. auto.
    + destruct f; try discriminate. eauto 8.
    + destruct s; [auto 8 | discriminate].
    + destruct l; [auto 8 | discriminate].
    + destruct d; [auto 8 | discriminate].
  - apply falsy_body_is_client_error with rd; assumption.
Qed.

Lemma falsy_body_is_missing_parameters_witness :
  get_json (post (JObj [])) = Ok (JObj []) /\
  truthy (JObj []) = false /\
  (JObj [] = JNull \/ JObj [] = JBool false \/ JObj [] = JInt 0 \/
   (exists sign, JObj [] = JFloat (S754_zero sign)) \/
   JObj [] = JStr "" \/ JObj [] = JArr [] \/ JObj [] = JObj []) /\
  handle sample_lib (post (JObj [])) =
  (Ok {| body := jsonify
           [("success", JBool false);
            ("error", JStr "Missing required parameters: template and data")];
         status := 400 |}, []).
Proof.
  split; [reflexivity |]. split; [reflexivity |].
  apply (falsy_body_is_missing_parameters sample_lib (post (JObj []))
           (JObj [])); reflexivity.
Defined.

(** X15.  The checks on a mapping body come in the order of the source:
    a missing [template] or [data] is reported whatever else is wrong,
    and a [data] that is no mapping is reported whatever the
    [template]. *)
Theorem mapping_body_validation lib req d :
  get_json req = Ok (JObj d) ->
  (dict_get "template" d = None \/ dict_get "data" d = None ->
   handle lib req =
   (Ok (client_error "Missing required parameters: template and data"), []))
  /\
  (forall t v,
     dict_get "template" d = Some t -> dict_get "data" d = Some v ->
     is_mapping v = false ->
     handle lib req = (Ok (client_error "Data must be an object"), [])).
Proof.
  intros Hj. split.
  - intros H. rewrite handle_outcome. unfold outcome.
    rewrite Hj, missing_parameters_mapping. unfold dict_mem.
    destruct H as [-> | ->]; [reflexivity |].
    destruct (dict_get "template" d); reflexivity.
  - intros t v Ht Hd Hv. rewrite handle_outcome. unfold outcome.
    rewrite Hj, (missing_parameters_obj d t v Ht Hd).
    rewrite (py_getitem_obj _ _ _ Ht), (py_getitem_obj _ _ _ Hd).
    destruct v; try reflexivity. discriminate.
Qed.

Lemma mapping_body_validation_witness :
  let d := [("template", JInt 5); ("data", JArr [JInt 1])] in
  get_json (post (JObj d)) = Ok (JObj d) /\
  (dict_get "template" d = None \/ dict_get "data" d = None ->
   handle sample_lib (post (JObj d)) =
   (Ok (client_error "Missing required parameters: template and data"), []))
  /\
  (forall t v,
     dict_get "template" d = Some t -> dict_get "data" d = Some v ->
     is_mapping v = false ->
     handle sample_lib (post (JObj d)) =
     (Ok (client_error "Data must be an object"), [])).
Proof.
  cbv zeta. split; [reflexivity |].
  apply (mapping_body_validation sample_lib
           (post (JObj [("template", JInt 5); ("data", JArr [JInt 1])]))
           [("template", JInt 5); ("data", JArr [JInt 1])]).
  reflexivity.
Defined.

Lemma first_non_str_app pre key v post :
  first_non_str pre = None -> is_str v = false ->
  first_non_str (pre ++ (key, v) :: post) = Some key.
Proof.
  intros Hpre Hv. induction pre as [| [k w] pre IH]; cbn.
  - rewrite Hv. reflexivity.
  - cbn in Hpre. destruct (is_str w); [apply IH; assumption | discriminate].
Qed.

(** X16.  The key the message names is the first key of [data], in its
    order, whose value is not a string; the values after it are not
    looked at. *)
Theorem first_offending_key_is_reported lib req d t pre key v post :
  get_json req = Ok (JObj d) ->
  dict_get "template" d = Some t ->
  dict_get "data" d = Some (JObj (pre ++ (key, v) :: post)) ->
  first_non_str pre = None -> is_str v = false ->
  handle lib req =
  (Ok {| body := jsonify
           [("success", JBool false);
            ("error",
             JStr ("Data value for key '" ++ key ++ "' must be a string"))];
         status := 400 |}, []).
Proof.
  intros Hj Ht Hd Hpre Hv. rewrite handle_outcome. unfold outcome.
  rewrite Hj, (missing_parameters_obj d t _ Ht Hd).
  rewrite (py_getitem_obj _ _ _ Ht), (py_getitem_obj _ _ _ Hd).
  rewrite (first_non_str_app pre key v post Hpre Hv). reflexivity.
Qed.

Lemma first_offending_key_is_reported_witness :
  let pre := [("client_name", JStr "Acme")] in
  let post_ := [("total", JNull); ("date", JStr "2024-01-01")] in
  let d := [("template", JStr sample_template);
            ("data", JObj (pre ++ ("amount", JInt 42) :: post_))] in
  get_json (post (JObj d)) = Ok (JObj d) /\
  dict_get "template" d = Some (JStr sample_template) /\
  dict_get "data" d = Some (JObj (pre ++ ("amount", JInt 42) :: post_)) /\
  first_non_str pre = None /\ is_str (JInt 42) = false /\
  handle sample_lib (post (JObj d)) =
  (Ok {| body := jsonify
           [("success", JBool false);
            ("error",
             JStr ("Data value for key '" ++ "amount"
                   ++ "' must be a string"))];
         status := 400 |}, []).
Proof.
  cbv zeta. repeat (split; [reflexivity |]).
  apply (first_offending_key_is_reported sample_lib
           (post (JObj [("template", JStr sample_template);
                        ("data",
                         JObj ([("client_name", JStr "Acme")]
                               ++ ("amount", JInt 42)
                               :: [("total", JNull);
                                   ("date", JStr "2024-01-01")]))]))
           [("template", JStr sample_template);
            ("data",
             JObj ([("client_name", JStr "Acme")]
                   ++ ("amount", JInt 42)
                   :: [("total", JNull); ("date", JStr "2024-01-01")]))]
           (JStr sample_template)
           [("client_name", JStr "Acme")] "amount" (JInt 42)
           [("total", JNull); ("date", JStr "2024-01-01")]);
    reflexivity.
Defined.

(** X17.  A template with a character above the ASCII range is refused
    before any decoding: the response is 400 with the message about
    invalid base64. *)
Theorem non_ascii_template_is_client_error lib req d s items :
  get_json req = Ok (JObj d) ->
  dict_get "template" d = Some (JStr s) ->
  dict_get "data" d = Some (JObj items) ->
  first_non_str items = None ->
  ascii_only s = false ->
  handle lib req =
  (Ok {| body := jsonify [("success", JBool false);
                          ("error", JStr "Invalid base64 encoded template")];
         status := 400 |}, []).
Proof.
  intros Hj Ht Hd Hv Hs.
  rewrite (handle_validated lib req d (JStr s) items Hj Ht Hd Hv).
  rewrite b64decode_str, Hs. reflexivity.
Qed.

Lemma non_ascii_template_is_client_error_witness :
  let s := String e_acute "QUJD" in
  let d := [("template", JStr s); ("data", JObj sample_data)] in
  get_json (post (JObj d)) = Ok (JObj d) /\
  dict_get "template" d = Some (JStr s) /\
  dict_get "data" d = Some (JObj sample_data) /\
  first_non_str sample_data = None /\
  ascii_only s = false /\
  handle sample_lib (post (JObj d)) =
  (Ok {| body := jsonify [("success", JBool false);
                          ("error", JStr "Invalid base64 encoded template")];
         status := 400 |}, []).
Proof.
  cbv zeta. repeat (split; [reflexivity |]).
  apply (non_ascii_template_is_client_error sample_lib
           (post (JObj [("template", JStr (String e_acute "QUJD"));
                        ("data", JObj sample_data)]))
           [("template", JStr (String e_acute "QUJD"));
            ("data", JObj sample_data)]
           (String e_acute "QUJD") sample_data);
    reflexivity.
Defined.

(** ** Bodies that are no mapping *)
(** X18.  A body that is a [bool], an [int] or a [float], and truthy,
    makes line 46 raise [TypeError]: the response is 500 with the
    message of that exception, which is logged. *)
Theorem scalar_body_is_server_error lib req rd :
  get_json req = Ok rd -> is_scalar rd = true -> truthy rd = true ->
  let e := TypeError ("argument of type '" ++ type_name rd
                      ++ "' is not iterable")%string in
  handle lib req =
  (Ok {| body := jsonify [("success", JBool false);
                          ("error", JStr (str_exn e))];
         status := 500 |},
   [log_line e]).
Proof.
  intros Hj Hs Ht. rewrite handle_outcome. unfold outcome, missing_parameters.
  rewrite Hj, Ht. destruct rd; try discriminate Hs; reflexivity.
Qed.

Lemma scalar_body_is_server_error_witness :
  let e := TypeError ("argument of type '" ++ type_name (JBool true)
                      ++ "' is not iterable")%string in
  get_json (post (JBool true)) = Ok (JBool true) /\
  is_scalar (JBool true) = true /\ truthy (JBool true) = true /\
  handle sample_lib (post (JBool true)) =
  (Ok {| body := jsonify [("success", JBool false);
                          ("error", JStr (str_exn e))];
         status := 500 |},
   [log_line e]).
Proof.
  cbv zeta. repeat (split; [reflexivity |]).
  apply (scalar_body_is_server_error sample_lib (post (JBool true))
           (JBool true)); reflexivity.
Defined.

Lemma existsb_str_In item l :
  existsb (fun v => match v with JStr s => String.eqb item s | _ => false end)
          l = true <-> In (JStr item) l.
Proof.
  induction l as [| v l IH]; cbn; [split; [discriminate | tauto] |].
  rewrite orb_true_iff, IH. split.
  - intros [H | H]; [left | right; assumption].
    destruct v; try discriminate. apply String.eqb_eq in H. congruence.
  - intros [-> | H]; [left; apply String.eqb_refl | right; assumption].
Qed.

(** X19.  A list body passes line 46 exactly when it holds both the
    strings [template] and [data]; it then fails on
    [request_data['template']] with [TypeError] and is answered 500.
    Any other list body is answered 400. *)
Theorem list_body_outcome lib req l :
  get_json req = Ok (JArr l) ->
  (In (JStr "template") l /\ In (JStr "data") l ->
   exists e,
     exn_class e = "TypeError" /\
     handle lib req = (Ok (server_error e), [log_line e])) /\
  (~ (In (JStr "template") l /\ In (JStr "data") l) ->
   handle lib req =
   (Ok (client_error "Missing required parameters: template and data"), [])).
Proof.
  intros Hj. rewrite handle_outcome. unfold outcome, missing_parameters,
    py_not_in, py_in. rewrite Hj.
  rewrite <- !existsb_str_In.
  destruct l as [| v l]; [split; [intros [H _]; discriminate | reflexivity] |].
  cbn [truthy negb].
  destruct (existsb _ (v :: l)); cbn [negb].
  - destruct (existsb _ (v :: l)); cbn [negb].
    + split; [| intros H; contradiction H; split; reflexivity].
      intros _. eexists. split; [| reflexivity]. reflexivity.
    + split; [intros [_ H]; discriminate | reflexivity].
  - split; [intros [H _]; discriminate | reflexivity].
Qed.

Lemma list_body_outcome_witness :
  let l := [JStr "template"; JStr "data"] in
  get_json (post (JArr l)) = Ok (JArr l) /\
  (In (JStr "template") l /\ In (JStr "data") l ->
   exists e,
     exn_class e = "TypeError" /\
     handle sample_lib (post (JArr l)) =
     (Ok (server_error e), [log_line e])) /\
  (~ (In (JStr "template") l /\ In (JStr "data") l) ->
   handle sample_lib (post (JArr l)) =
   (Ok (client_error "Missing required parameters: template and data"), [])).
Proof.
  cbv zeta. split; [reflexivity |].
  apply (list_body_outcome sample_lib
           (post (JArr [JStr "template"; JStr "data"]))
           [JStr "template"; JStr "data"]).
  reflexivity.
Defined.

(** X20.  A string body passes line 46 exactly when [template] and
    [data] both occur in it as substrings; it then fails on
    [request_data['template']] with [TypeError] and is answered 500.
    Any other string body is answered 400. *)
Theorem string_body_outcome lib req s :
  get_json req = Ok (JStr s) ->
  (substring_of "template" s = true /\ substring_of "data" s = true ->
   exists e,
     exn_class e = "TypeError" /\
     handle lib req = (Ok (server_error e), [log_line e])) /\
  (~ (substring_of "template" s = true /\ substring_of "data" s = true) ->
   handle lib req =
   (Ok (client_error "Missing required parameters: template and data"), [])).
Proof.
  intros Hj. rewrite handle_outcome. unfold outcome, missing_parameters,
    py_not_in, py_in. rewrite Hj.
  destruct s as [| a s]; [split; [intros [H _]; discriminate | reflexivity] |].
  change (truthy (JStr (String a s))) with true. cbn [negb].
  destruct (substring_of "template" (String a s)); cbn [negb].
  - destruct (substring_of "data" (String a s)); cbn [negb].
    + split; [| intros H; contradiction H; split; reflexivity].
      intros _. eexists. split; [| reflexivity]. reflexivity.
    + split; [intros [_ H]; discriminate | reflexivity].
  - split; [intros [H _]; discriminate | reflexivity].
Qed.

Lemma string_body_outcome_witness :
  let s := "the template and the data" in
  get_json (post (JStr s)) = Ok (JStr s) /\
  (substring_of "template" s = true /\ substring_of "data" s = true ->
   exists e,
     exn_class e = "TypeError" /\
     handle sample_lib (post (JStr s)) =
     (Ok (server_error e), [log_line e])) /\
  (~ (substring_of "template" s = true /\ substring_of "data" s = true) ->
   handle sample_lib (post (JStr s)) =
   (Ok (client_error "Missing required parameters: template and data"), [])).
Proof.
  cbv zeta. split; [reflexivity |].
  apply (string_body_outcome sample_lib
           (post (JStr "the template and the data"))
           "the template and the data").
  reflexivity.
Defined.
